(** * SciCode: step generation driver ([eval/scripts/gencode_json.py])

    A shallow embedding of the [Gencode] class and of [main], and the
    properties of step resolution, prompt assembly and generation that the
    specification of the repository states about them.

    Modelling conventions.
    - A Python [int] is a [Z]; list indexing follows Python (a negative
      index counts from the end, an index out of range raises
      [IndexError]).
    - A [pathlib.Path] is the sequence of its parts; [p / name] appends one
      part, as pathlib does for a name that is a single component (no "/",
      not "." or "..").  The file system is a finite map from paths to the
      text of the
      regular files; directories carry no data, so [mkdir(parents=True,
      exist_ok=True)] leaves the map as it is, and [is_file()] and
      [exists()] both ask whether the map is defined at the path.
    - The instance field [previous_llm_code], the file system and the record
      of model invocations are threaded through a state-and-exception monad:
      an exception leaves the state as it was when it was raised, as in
      Python.
    - The functions imported from [scicode.parse.parse] and
      [scicode.gen.models], and [str.format], are collaborators whose code is
      not in this file: they are the fields of the class [Scicode]. *)

From Stdlib Require Import ZArith QArith String Ascii List.
From stdpp Require Import base gmap strings list pretty.

Local Open Scope Z_scope.
Local Open Scope stdpp_scope.

(** ** Data model *)

(** [prob_data["sub_steps"][i]], a dict with three string fields. *)
Record sub_step := SubStep {
  step_description_prompt : string;
  function_header : string;
  return_line : string
}.

(** [prob_data], one record of the problem set. *)
Record problem := Problem {
  problem_id : string;
  required_dependencies : string;
  sub_steps : list sub_step
}.

Abbreviation Path := (list string) (only parsing).

(** Values stored in [model_kwargs]. *)
Inductive value :=
| VInt (z : Z)
| VFloat (q : Q).

(** The immutable fields of a [Gencode] instance ([__init__], lines 16-21);
    the mutable field [previous_llm_code] lives in [state]. *)
Record Gencode := {
  self_model : string;
  self_output_dir : Path;
  self_prompt_dir : Path;
  self_temperature : Q
}.

(** One use of the model client (lines 94-95): the model identifier, the
    keyword arguments handed to [get_model_function] and the prompt. *)
Record invocation := Invocation {
  inv_model : string;
  inv_kwargs : gmap string value;
  inv_prompt : string
}.

Record state := State {
  previous_llm_code : list (option string);
  files : gmap Path string;
  invocations : list invocation;
  stdout : list string
}.

Definition set_previous_llm_code (c : list (option string)) (s : state) : state :=
  State c (files s) (invocations s) (stdout s).

Definition set_files (f : gmap Path string) (s : state) : state :=
  State (previous_llm_code s) f (invocations s) (stdout s).

Definition add_invocation (i : invocation) (s : state) : state :=
  State (previous_llm_code s) (files s) (invocations s ++ [i]) (stdout s).

Definition add_stdout (line : string) (s : state) : state :=
  State (previous_llm_code s) (files s) (invocations s) (stdout s ++ [line]).

(** ** Exceptions and the monad *)

Inductive exn :=
| Exception (msg : string)
| AssertionError
| IndexError
| TypeError
| ValueError (msg : string)
| KeyError (msg : string)
| FileNotFoundError
| ClientError (msg : string).

Inductive result (A : Type) :=
| Ok (a : A)
| Raise (e : exn).
Arguments Ok {A} a.
Arguments Raise {A} e.

Definition M (A : Type) : Type := state -> state * result A.

Definition ret {A} (a : A) : M A := fun s => (s, Ok a).

Definition raise {A} (e : exn) : M A := fun s => (s, Raise e).

Definition bind {A B} (m : M A) (k : A -> M B) : M B :=
  fun s =>
    match m s with
    | (s', Ok a) => k a s'
    | (s', Raise e) => (s', Raise e)
    end.

Definition lift {A} (r : result A) : M A := fun s => (s, r).

Definition get : M state := fun s => (s, Ok s).

Definition modify (f : state -> state) : M unit := fun s => (f s, Ok tt).

Notation "x <- m ;; k" := (bind m (fun x => k))
  (at level 100, m at next level, right associativity).
Notation "m ;;; k" := (bind m (fun _ => k))
  (at level 100, right associativity).

(** [for x in xs: body(x)] *)
Fixpoint for_each {A} (xs : list A) (body : A -> M unit) : M unit :=
  match xs with
  | [] => ret tt
  | x :: xs' => body x ;;; for_each xs' body
  end.

(** ** Python built-ins *)

Definition nl : string := String "010"%char "".

(** [range(n)] *)
Definition range (n : Z) : list Z := Z.of_nat <$> seq 0 (Z.to_nat n).

(** [[None] * n]: the empty list when [n] is not positive. *)
Definition none_list (n : Z) : list (option string) := replicate (Z.to_nat n) None.

(** The position a Python index denotes in a list of length [len]. *)
Definition py_index (len : nat) (i : Z) : option nat :=
  if 0 <=? i then
    if i <? Z.of_nat len then Some (Z.to_nat i) else None
  else
    if 0 <=? Z.of_nat len + i then Some (Z.to_nat (Z.of_nat len + i)) else None.

(** [l[i]] *)
Definition getitem {A} (l : list A) (i : Z) : result A :=
  match py_index (length l) i with
  | Some n => match l !! n with Some a => Ok a | None => Raise IndexError end
  | None => Raise IndexError
  end.

(** [l[i] = a] *)
Definition setitem {A} (l : list A) (i : Z) (a : A) : result (list A) :=
  match py_index (length l) i with
  | Some n => Ok (<[n := a]> l)
  | None => Raise IndexError
  end.

(** [l[:-1]] *)
Definition drop_last {A} (l : list A) : list A := removelast l.

(** [sep.join(l)] on a list whose items are strings or [None]; [None] makes
    [join] raise [TypeError]. *)
Fixpoint all_str (l : list (option string)) : option (list string) :=
  match l with
  | [] => Some []
  | Some x :: l' => match all_str l' with Some xs => Some (x :: xs) | None => None end
  | None :: _ => None
  end.

Definition join (sep : string) (l : list (option string)) : result string :=
  match all_str l with
  | Some xs => Ok (String.concat sep xs)
  | None => Raise TypeError
  end.

(** [sub in s] on strings. *)
Fixpoint str_in (sub s : string) : bool :=
  String.prefix sub s ||
  match s with
  | EmptyString => false
  | String _ s' => str_in sub s'
  end.

(** [str(i)] as it appears in an f-string. *)
Definition str (i : Z) : string := pretty i.

(** [Path.is_file()] and [Path.exists()] *)
Definition is_file (p : Path) (s : state) : bool := bool_decide (is_Some (files s !! p)).
Definition exists_ (p : Path) (s : state) : bool := bool_decide (is_Some (files s !! p)).

(** [p.read_text()] *)
Definition read_text (p : Path) : M string :=
  fun s =>
    match files s !! p with
    | Some text => (s, Ok text)
    | None => (s, Raise FileNotFoundError)
    end.

(** [p.write_text(text)] *)
Definition write_text (p : Path) (text : string) : M unit :=
  modify (fun s => set_files (<[p := text]> (files s)) s).

(** ** Collaborators

    [extract_function_name] raises when the header names no function;
    [get_function_from_code] answers [None] when the file defines no function
    of that name; [get_model_function model kwargs] is the model client, which
    may answer differently each time it is asked (its [nat] argument is the
    number of earlier invocations) and may raise; [format t a b c] is
    [t.format(problem_steps_str=a, next_step_str=b, dependencies=c)];
    [DEFAULT_PROMPT_TEMPLATE] is the text read from the template file when the
    module is loaded (line 12). *)
Class Scicode := {
  extract_function_name : string -> result string;
  get_function_from_code : string -> string -> option string;
  extract_python_script : string -> string;
  get_model_function : string -> gmap string value -> nat -> string -> result string;
  format : string -> string -> string -> string -> result string;
  DEFAULT_PROMPT_TEMPLATE : string
}.

(** The pairs tested at lines 63-64 and again at lines 188-189. *)
Definition fixture_override (prob_id : string) (step : Z) : bool :=
  (bool_decide (prob_id = "13") && (step =? 5))
  || (bool_decide (prob_id = "62") && (step =? 0))
  || (bool_decide (prob_id = "76") && (step =? 2)).

(** [f"{prob_id}.{n}.{ext}"] *)
Definition artifact_name (prob_id : string) (n : Z) (ext : string) : string :=
  prob_id +:+ "." +:+ str n +:+ "." +:+ ext.

(** The message of the exception raised at line 78. *)
Definition ahead_of_step (prob_id : string) (num_steps prev : Z) : string :=
  "Generating " +:+ prob_id +:+ " step " +:+ str num_steps
    +:+ " ahead of step " +:+ str prev +:+ ".".

Section Gencode.
Context `{Scicode}.

(** Lines 24-28. *)
Definition prompt_file_path (self : Gencode) (prob_data : problem) (num_steps : Z) : Path :=
  let output_dir := self_prompt_dir self ++ [self_model self] in
  output_dir ++ [artifact_name (problem_id prob_data) num_steps "txt"].

Definition save_prompt_with_steps (self : Gencode) (prob_data : problem)
    (prompt : string) (num_steps tot_steps : Z) : M unit :=
  write_text (prompt_file_path self prob_data num_steps) prompt.

(** Lines 32-37 and 88-92: [self.output_dir / model / f"{prob_id}.{n}.py"]. *)
Definition response_file_path (self : Gencode) (model prob_id : string) (n : Z) : Path :=
  self_output_dir self ++ [model] ++ [artifact_name prob_id n "py"].

(** Lines 30-39. *)
Definition save_response_with_steps (self : Gencode) (prob_data : problem)
    (response previous_code : string) (num_steps : Z) (model : string) : M unit :=
  let prob_id := problem_id prob_data in
  let output_file_path := response_file_path self model prob_id num_steps in
  let python_code := extract_python_script response in
  write_text output_file_path (previous_code +:+ nl +:+ python_code).

(** Lines 99-104. *)
Definition process_problem_code (prob_data : problem) (num_steps : Z) : result string :=
  match getitem (sub_steps prob_data) (num_steps - 1) with
  | Ok st => Ok (function_header st +:+ nl +:+ nl +:+ return_line st)
  | Raise e => Raise e
  end.

(** The loop of lines 111-114, on the two lists it appends to. *)
Fixpoint collect_previous (steps : list Z) (output_lines previous_code : list (option string))
    : M (list (option string) * list (option string)) :=
  match steps with
  | [] => ret (output_lines, previous_code)
  | i :: steps' =>
      s <- get ;;
      c1 <- lift (getitem (previous_llm_code s) i) ;;
      c2 <- lift (getitem (previous_llm_code s) i) ;;
      collect_previous steps' (output_lines ++ [c1] ++ [Some "------"]) (previous_code ++ [c2])
  end.

(** Lines 106-121. *)
Definition process_problem_steps (problem_data : problem) (num_steps : Z)
    : M (string * string * string) :=
  collected <- collect_previous (range (num_steps - 1)) [] [] ;;
  let '(output_lines, previous_code) := collected in
  st <- lift (getitem (sub_steps problem_data) (num_steps - 1)) ;;
  code <- lift (process_problem_code problem_data num_steps) ;;
  let next_step := [Some (step_description_prompt st)] ++ [Some code] in
  output_str <- lift (join (nl +:+ nl) (drop_last output_lines)) ;;
  next_step_str <- lift (join (nl +:+ nl) next_step) ;;
  previous_code_str <- lift (join nl previous_code) ;;
  ret (output_str, next_step_str, previous_code_str).

(** Lines 123-135. *)
Definition generate_prompt_with_steps (prob_data : problem) (num_steps : Z)
    (prompt_template : string) : M (string * string) :=
  parts <- process_problem_steps prob_data num_steps ;;
  let '(problem_steps_str, next_step_str, previous_code_str) := parts in
  let dependencies := required_dependencies prob_data in
  if bool_decide (next_step_str = "") then raise AssertionError
  else
    prompt <- lift (format prompt_template problem_steps_str next_step_str dependencies) ;;
    ret (prompt, dependencies +:+ nl +:+ previous_code_str +:+ nl).

(** Lines 63-71: where the code of an earlier step is read from. *)
Definition prev_file_path (self : Gencode) (model prob_id : string) (prev_step : Z) : Path :=
  if fixture_override prob_id prev_step
  then ["eval"; "data"; artifact_name prob_id (prev_step + 1) "txt"]
  else response_file_path self model prob_id (prev_step + 1).

(** Lines 62-78, the body of the loop over the earlier steps. *)
Definition resolve_prev_step (self : Gencode) (prob_data : problem) (num_steps : Z)
    (model : string) (prev_step : Z) : M unit :=
  let prob_id := problem_id prob_data in
  s <- get ;;
  slot <- lift (getitem (previous_llm_code s) prev_step) ;;
  match slot with
  | Some _ => ret tt
  | None =>
      let path := prev_file_path self model prob_id prev_step in
      if is_file path s then
        prev_file_content <- read_text path ;;
        st <- lift (getitem (sub_steps prob_data) prev_step) ;;
        func_name <- lift (extract_function_name (function_header st)) ;;
        let function_code := get_function_from_code prev_file_content func_name in
        cache <- lift (setitem (previous_llm_code s) prev_step function_code) ;;
        modify (set_previous_llm_code cache)
      else raise (Exception (ahead_of_step prob_id num_steps (prev_step + 1)))
  end.

(** Lines 56-78. *)
Definition resolve_previous_steps (self : Gencode) (prob_data : problem)
    (num_steps tot_steps : Z) (model : string) : M unit :=
  if num_steps =? 1 then
    modify (set_previous_llm_code (none_list tot_steps))
  else
    s <- get ;;
    (if negb (Z.of_nat (length (previous_llm_code s)) =? tot_steps)
     then modify (set_previous_llm_code (none_list tot_steps))
     else ret tt) ;;;
    for_each (range (num_steps - 1)) (resolve_prev_step self prob_data num_steps model).

(** Lines 83-86. *)
Definition model_kwargs (self : Gencode) (model : string) : gmap string value :=
  let kwargs : gmap string value := ∅ in
  let kwargs := if str_in "claude" model then <["max_tokens" := VInt 4096]> kwargs else kwargs in
  <["temperature" := VFloat (self_temperature self)]> kwargs.

(** Lines 93-97. *)
Definition generate_if_absent (self : Gencode) (prob_data : problem) (num_steps : Z)
    (model prompt previous_code : string) : M unit :=
  let prob_id := problem_id prob_data in
  let output_file_path := response_file_path self model prob_id num_steps in
  s <- get ;;
  if negb (exists_ output_file_path s) then
    let kwargs := model_kwargs self model in
    modify (add_invocation (Invocation model kwargs prompt)) ;;;
    response_from_llm <- lift (get_model_function model kwargs (length (invocations s)) prompt) ;;
    s' <- get ;;
    cache <- lift (setitem (previous_llm_code s') (num_steps - 1)
                     (Some (extract_python_script response_from_llm))) ;;
    modify (set_previous_llm_code cache) ;;;
    save_response_with_steps self prob_data response_from_llm previous_code num_steps model
  else ret tt.

(** Lines 41-97. *)
Definition generate_response_with_steps (self : Gencode) (prob_data : problem)
    (num_steps tot_steps : Z) (model prompt_template : string) (save : bool) : M unit :=
  resolve_previous_steps self prob_data num_steps tot_steps model ;;;
  generated <- generate_prompt_with_steps prob_data num_steps prompt_template ;;
  let '(prompt, previous_code) := generated in
  (if save then save_prompt_with_steps self prob_data prompt num_steps tot_steps else ret tt) ;;;
  generate_if_absent self prob_data num_steps model prompt previous_code.

(** Lines 188-191, the body of the loop over the steps of one problem;
    [save] keeps its default [True]. *)
Definition generate_step (gcode : Gencode) (model : string) (problem : problem)
    (steps i : Z) : M unit :=
  let prob_id := problem_id problem in
  if fixture_override prob_id i then ret tt
  else generate_response_with_steps gcode problem (i + 1) steps model
         DEFAULT_PROMPT_TEMPLATE true.

(** Lines 184-191, the body of the loop over the problems. *)
Definition generate_problem (gcode : Gencode) (model : string) (problem : problem) : M unit :=
  let prob_id := problem_id problem in
  let steps := Z.of_nat (length (sub_steps problem)) in
  modify (add_stdout ("Generating " +:+ prob_id +:+ "...")) ;;;
  for_each (range steps) (generate_step gcode model problem steps).

(** Lines 172-191; [data] is what [read_from_jsonl(input_path)] returned. *)
Definition main (model : string) (output_dir prompt_dir : Path) (temperature : Q)
    (data : list problem) : M unit :=
  let gcode := Build_Gencode model output_dir prompt_dir temperature in
  modify (set_previous_llm_code []) ;;;
  for_each data (generate_problem gcode model).

End Gencode.

(** ** Definitions used to state the properties *)

(** The cache once lines 56-60 have run. *)
Definition cache_after_reset (num_steps tot_steps : Z) (cache : list (option string))
    : list (option string) :=
  if (num_steps =? 1) || negb (Z.of_nat (length cache) =? tot_steps)
  then none_list tot_steps else cache.

(** The items of [l] with [sep] between consecutive items and none after the
    last one. *)
Fixpoint separated (sep : string) (l : list string) : list string :=
  match l with
  | [] => []
  | [x] => [x]
  | x :: l' => x :: sep :: separated sep l'
  end.

(** The next-step section of the prompt for a sub-step. *)
Definition next_step_text (st : sub_step) : string :=
  step_description_prompt st +:+ (nl +:+ nl)
    +:+ (function_header st +:+ nl +:+ nl +:+ return_line st).

(** [generate_prompt_with_steps] with the [assert] of line 130 taken out. *)
Definition generate_prompt_unchecked `{Scicode} (prob_data : problem) (num_steps : Z)
    (prompt_template : string) : M (string * string) :=
  parts <- process_problem_steps prob_data num_steps ;;
  let '(problem_steps_str, next_step_str, previous_code_str) := parts in
  let dependencies := required_dependencies prob_data in
  prompt <- lift (format prompt_template problem_steps_str next_step_str dependencies) ;;
  ret (prompt, dependencies +:+ nl +:+ previous_code_str +:+ nl).

(** The keyword arguments a model identifier calls for. *)
Definition kwargs_for (temperature : Q) (model : string) (kw : gmap string value) : Prop :=
  kw !! "temperature" = Some (VFloat temperature)
  /\ kw !! "max_tokens" = (if str_in "claude" model then Some (VInt 4096) else None)
  /\ forall k, k <> "temperature" -> k <> "max_tokens" -> kw !! k = None.

(** The invocations of [s'] are those of [s] followed by invocations of
    [model] with the keyword arguments of [kwargs_for]. *)
Definition invokes (temperature : Q) (model : string) (s s' : state) : Prop :=
  exists new,
    invocations s' = invocations s ++ new
    /\ Forall (fun i => inv_model i = model /\ kwargs_for temperature model (inv_kwargs i)) new.

(** What a part of a call may change: nothing but the text of the files at
    the paths in [written], and the cache slots below [bound]. *)
Record frame (written : list Path) (bound : nat) (s s' : state) : Prop := {
  frame_files : forall p, p ∉ written -> files s' !! p = files s !! p;
  frame_invocations : invocations s' = invocations s;
  frame_stdout : stdout s' = stdout s;
  frame_length : length (previous_llm_code s') = length (previous_llm_code s);
  frame_slots : forall j : nat, (bound <= j)%nat ->
                  previous_llm_code s' !! j = previous_llm_code s !! j
}.

(** How lines 62-76 fill slot [j] from the cache [cache] and the files
    [fs]: a slot that holds a body keeps it; an unresolved slot receives what
    [get_function_from_code] answers on the text of its source file. *)
Definition slot_resolved `{Scicode} (self : Gencode) (prob_data : problem) (model : string)
    (fs : gmap Path string) (cache : list (option string)) (j : nat) (v : option string) : Prop :=
  (exists body, cache !! j = Some (Some body) /\ v = Some body)
  \/ (cache !! j = Some None
      /\ exists content st name,
           fs !! prev_file_path self model (problem_id prob_data) (Z.of_nat j) = Some content
           /\ sub_steps prob_data !! j = Some st
           /\ extract_function_name (function_header st) = Ok name
           /\ v = get_function_from_code content name).

(** ** A small instance of the collaborators, to run the code on examples *)

Module Demo.

Definition scicode : Scicode := {|
  extract_function_name h := Ok h;
  get_function_from_code code name := if str_in name code then Some code else None;
  extract_python_script r := r;
  get_model_function model kwargs n prompt := Ok ("code" +:+ pretty n);
  format t a b c := Ok ("[" +:+ a +:+ "|" +:+ b +:+ "|" +:+ c +:+ "]");
  DEFAULT_PROMPT_TEMPLATE := "T"
|}.

Definition step (n : string) : sub_step :=
  SubStep ("desc " +:+ n) ("f_" +:+ n) ("return " +:+ n).

Definition P1 : problem := Problem "1" "import numpy as np" [step "a"; step "b"].
Definition P62 : problem := Problem "62" "import scipy" [step "c"; step "d"].

Definition gcode : Gencode := Build_Gencode "gpt-4o" ["out"] ["prompts"] 0%Q.

Definition empty_state : state := State [] ∅ [] [].

(** A state where the fixture of step 1 of problem "62" is on disk. *)
Definition with_fixture : state :=
  State [] {[ ["eval"; "data"; "62.1.txt"] := "def f_c(): return 0" ]} [] [].

(** The one-step problem of the end-to-end scenario. *)
Definition one_step : problem :=
  Problem "1" "import numpy as np"
    [SubStep "Compute sum" ("def f(x):" +:+ nl +:+ "    '''doc'''") "    return sum(x)"].

(** A problem whose only sub-step has empty fields. *)
Definition blank : problem := Problem "" "" [SubStep "" "" ""].

(** A state where the response of step 1 of [P1] is on disk and defines no
    function of the expected name. *)
Definition other_function : state :=
  State [] {[ ["out"; "gpt-4o"; "1.1.py"] := "x = 1" ]} [] [].

(** A state where the response of step 1 of [P1] is on disk. *)
Definition step_1_done : state :=
  State [] {[ ["out"; "gpt-4o"; "1.1.py"] := "def f_a(): pass" ]} [] [].

End Demo.

(** ** Definitions used to state further properties *)

(** The state in which lines 83-97 run: the state after resolution, with the
    prompt file written when [save] is set (lines 80-81). *)
Definition after_save_prompt (self : Gencode) (prob_data : problem) (num_steps : Z)
    (prompt : string) (save : bool) (s1 : state) : state :=
  if save
  then set_files (<[prompt_file_path self prob_data num_steps := prompt]> (files s1)) s1
  else s1.

(** The line [main] prints for a problem (line 186). *)
Definition generating_line (prob_data : problem) : string :=
  "Generating " +:+ problem_id prob_data +:+ "...".

(** Every step [main] generates for the problems [data] has its response
    file in [fs]. *)
Definition responses_present (gcode : Gencode) (model : string) (data : list problem)
    (fs : gmap Path string) : Prop :=
  forall prob_data i,
    prob_data ∈ data ->
    0 <= i < Z.of_nat (length (sub_steps prob_data)) ->
    fixture_override (problem_id prob_data) i = false ->
    is_Some (fs !! response_file_path gcode model (problem_id prob_data) (i + 1)).

(** No character of [s] is a dot. *)
Fixpoint dotless (s : string) : Prop :=
  match s with
  | EmptyString => True
  | String c s' => c <> "."%char /\ dotless s'
  end.

(** The path [p] is no file of the prompt directory or of the output
    directory of [model]. *)
Definition outside_artifact_dirs (self : Gencode) (model : string) (p : Path) : Prop :=
  (forall name, p <> self_prompt_dir self ++ [self_model self] ++ [name])
  /\ (forall name, p <> self_output_dir self ++ [model] ++ [name]).

(** What a call or a run may do to the files: change those of the two
    artifact directories, remove none. *)
Definition writes_artifacts_only (self : Gencode) (model : string) (s s' : state) : Prop :=
  (forall p, outside_artifact_dirs self model p -> files s' !! p = files s !! p)
  /\ (forall p, is_Some (files s !! p) -> is_Some (files s' !! p)).

(** An instance of the collaborators whose model client is out of reach. *)
Module Faulty.

Definition scicode : Scicode := {|
  extract_function_name h := Ok h;
  get_function_from_code code name := if str_in name code then Some code else None;
  extract_python_script r := r;
  get_model_function model kwargs n prompt := Raise (ClientError "connection refused");
  format t a b c := Ok ("[" +:+ a +:+ "|" +:+ b +:+ "|" +:+ c +:+ "]");
  DEFAULT_PROMPT_TEMPLATE := "T"
|}.

(** An instance that finds a function name only in a header with "def ", and
    whose template rendering knows no field "missing". *)
Definition strict : Scicode := {|
  extract_function_name h :=
    if str_in "def " h then Ok h
    else Raise (ValueError "Function name or class name not found.");
  get_function_from_code code name := if str_in name code then Some code else None;
  extract_python_script r := r;
  get_model_function model kwargs n prompt := Ok ("code" +:+ pretty n);
  format t a b c :=
    if str_in "{missing}" t then Raise (KeyError "missing")
    else Ok ("[" +:+ a +:+ "|" +:+ b +:+ "|" +:+ c +:+ "]");
  DEFAULT_PROMPT_TEMPLATE := "T"
|}.

End Faulty.

(** * Properties *)

(** ** The monad and the built-ins *)

Ltac run :=
  unfold bind, ret, raise, lift, get, modify in *; simpl in *.

Lemma for_each_app {A} (xs ys : list A) (body : A -> M unit) s :
  for_each (xs ++ ys) body s =
    match for_each xs body s with
    | (s', Ok _) => for_each ys body s'
    | (s', Raise e) => (s', Raise e)
    end.
Proof.
  revert s. induction xs as [|x xs IH]; intros s; simpl; [done|].
  unfold bind. destruct (body x s) as [s1 [[]|e]]; [apply IH|done].
Qed.

(** A relation that every iteration keeps is kept by the loop, also when an
    iteration raises. *)
Lemma for_each_preserves {A} (R : state -> state -> Prop) (xs : list A) (body : A -> M unit) :
  (forall s, R s s) ->
  (forall s1 s2 s3, R s1 s2 -> R s2 s3 -> R s1 s3) ->
  (forall x s, x ∈ xs -> R s (fst (body x s))) ->
  forall s, R s (fst (for_each xs body s)).
Proof.
  intros Hrefl Htrans. induction xs as [|x xs IH]; intros Hbody s; simpl; [apply Hrefl|].
  unfold bind. pose proof (Hbody x s (list_elem_of_here _ _)) as Hx.
  destruct (body x s) as [s1 [[]|e]]; simpl in *; [|done].
  eapply Htrans; [exact Hx|]. apply IH. intros y s' Hy. apply Hbody. by right.
Qed.

Lemma elem_of_range (n i : Z) : i ∈ range n <-> 0 <= i < n.
Proof.
  unfold range. rewrite list_elem_of_fmap. split.
  - intros (k & -> & Hk). apply elem_of_seq in Hk. lia.
  - intros Hi. exists (Z.to_nat i). split; [lia|]. apply elem_of_seq. lia.
Qed.

Lemma range_succ (n : Z) : 0 <= n -> range (n + 1) = range n ++ [n].
Proof.
  intros Hn. unfold range.
  replace (Z.to_nat (n + 1)) with (S (Z.to_nat n)) by lia.
  rewrite seq_S, fmap_app. simpl. by rewrite Z2Nat.id.
Qed.

Lemma range_nonpos (n : Z) : n <= 0 -> range n = [].
Proof. intros Hn. unfold range. by replace (Z.to_nat n) with 0%nat by lia. Qed.

Lemma getitem_nonneg {A} (l : list A) (i : Z) :
  0 <= i ->
  getitem l i = match l !! Z.to_nat i with Some a => Ok a | None => Raise IndexError end.
Proof.
  intros Hi. unfold getitem, py_index.
  destruct (Z.leb_spec 0 i); [|lia].
  destruct (Z.ltb_spec i (Z.of_nat (length l))); [done|].
  rewrite (proj2 (lookup_ge_None l (Z.to_nat i))); [done|lia].
Qed.

Lemma setitem_nonneg {A} (l : list A) (i : Z) (a : A) :
  0 <= i ->
  setitem l i a =
    if i <? Z.of_nat (length l) then Ok (<[Z.to_nat i := a]> l) else Raise IndexError.
Proof.
  intros Hi. unfold setitem, py_index.
  destruct (Z.leb_spec 0 i); [|lia]. by destruct (Z.ltb_spec i (Z.of_nat (length l))).
Qed.

Lemma setitem_length {A} (l l' : list A) (i : Z) (a : A) :
  setitem l i a = Ok l' -> length l' = length l.
Proof.
  unfold setitem. destruct (py_index _ _); [|done]. intros [= <-]. apply length_insert.
Qed.

Lemma length_none_list (n : Z) : 0 <= n -> Z.of_nat (length (none_list n)) = n.
Proof. intros Hn. unfold none_list. rewrite length_replicate. lia. Qed.

Lemma lookup_none_list (n : Z) (j : nat) :
  none_list n !! j = if decide (Z.of_nat j < n) then Some None else None.
Proof.
  unfold none_list. case_decide.
  - apply lookup_replicate_2. lia.
  - apply lookup_ge_None. rewrite length_replicate. lia.
Qed.

(** ** File names *)

Lemma string_length_app (a b : string) :
  String.length (a +:+ b) = (String.length a + String.length b)%nat.
Proof. induction a as [|c a IH]; simpl; [done|by rewrite IH]. Qed.

Lemma string_app_assoc (a b c : string) : (a +:+ b) +:+ c = a +:+ b +:+ c.
Proof.
  induction a as [|x a IH]; [done|].
  change (String x ((a +:+ b) +:+ c) = String x (a +:+ b +:+ c)). by rewrite IH.
Qed.

Lemma artifact_name_inj (prob_id : string) (n m : Z) (ext : string) :
  artifact_name prob_id n ext = artifact_name prob_id m ext -> n = m.
Proof.
  unfold artifact_name, str. intros Heq.
  apply (inj (String.app prob_id)), (inj (String.app ".")) in Heq.
  destruct (decide (n = m)) as [|Hne]; [done|]. exfalso.
  assert (String.length (pretty n) = String.length (pretty m)) as Hlen.
  { apply (f_equal String.length) in Heq.
    rewrite !string_length_app in Heq. simpl in Heq. lia. }
  assert (forall a b c : string,
    String.length a = String.length b -> a +:+ c = b +:+ c -> a = b) as Hcancel.
  { intros a. induction a as [|x a IH]; intros [|y b] c Hl Hab; simpl in *; try done.
    injection Hab as -> Hab. f_equal. eapply IH; [lia|done]. }
  apply Hcancel in Heq; [|done]. by apply (inj pretty) in Heq.
Qed.

Lemma artifact_name_txt_py (prob_id : string) (n : Z) :
  artifact_name prob_id n "txt" <> artifact_name prob_id n "py".
Proof.
  unfold artifact_name. intros Heq.
  apply (inj (String.app prob_id)), (inj (String.app ".")),
    (inj (String.app (str n))) in Heq. discriminate Heq.
Qed.

Lemma prompt_path_not_response_path `{Scicode} (self : Gencode) (prob_data : problem)
    (model : string) (num_steps : Z) :
  prompt_file_path self prob_data num_steps
    <> response_file_path self model (problem_id prob_data) num_steps.
Proof.
  unfold prompt_file_path, response_file_path. rewrite (app_assoc (self_output_dir self)).
  intros Heq. apply app_inj_tail in Heq as [_ Heq]. by apply artifact_name_txt_py in Heq.
Qed.

Lemma fixture_path_not_response_path `{Scicode} (self : Gencode) (model prob_id : string)
    (n m : Z) :
  ["eval"; "data"; artifact_name prob_id n "txt"] <> response_file_path self model prob_id m.
Proof.
  unfold response_file_path. rewrite (app_assoc (self_output_dir self)).
  change ["eval"; "data"; artifact_name prob_id n "txt"]
    with (["eval"; "data"] ++ [artifact_name prob_id n "txt"]).
  intros Heq. apply app_inj_tail in Heq as [_ Heq]. revert Heq.
  unfold artifact_name. intros Heq. apply (inj (String.app prob_id)), (inj (String.app ".")) in Heq.
  assert (forall a b : string, a +:+ ".txt" <> b +:+ ".py") as Hne; [|by apply Hne in Heq].
  clear. intros a b Heq. apply (f_equal String.rev) in Heq.
  assert (forall x y acc, String.rev_app (x +:+ y) acc = String.rev_app y (String.rev_app x acc))
    as Hrev.
  { intros x. induction x as [|c x IH]; intros y acc; simpl; [done|apply IH]. }
  unfold String.rev in Heq. rewrite !Hrev in Heq. simpl in Heq. discriminate Heq.
Qed.

(** ** Prompt assembly *)

Section Assembly.
Context `{Scicode}.

Lemma all_str_fmap_Some (l : list string) : all_str (Some <$> l) = Some l.
Proof. induction l as [|x l IH]; csimpl; [done|by rewrite IH]. Qed.

Lemma join_fmap_Some (sep : string) (l : list string) :
  join sep (Some <$> l) = Ok (String.concat sep l).
Proof. unfold join. by rewrite all_str_fmap_Some. Qed.

Lemma drop_last_separated (l : list string) :
  drop_last (flat_map (fun b => [b] ++ [Some "------"]) (Some <$> l))
    = Some <$> separated "------" l.
Proof.
  unfold drop_last. induction l as [|x [|y l] IH]; [done..|].
  change (removelast (Some x :: Some "------" ::
            flat_map (fun b => [b] ++ [Some "------"]) (Some <$> y :: l))
          = Some x :: Some "------" :: (Some <$> separated "------" (y :: l))).
  rewrite <- IH. simpl. done.
Qed.

Lemma concat_separated (a b : string) (l : list string) :
  String.concat a (separated b l) = String.concat (a +:+ b +:+ a) l.
Proof.
  induction l as [|x [|y l] IH]; [done..|].
  change (separated b (x :: y :: l)) with (x :: b :: separated b (y :: l)).
  change (String.concat a (x :: b :: separated b (y :: l)))
    with (x +:+ a +:+ String.concat a (b :: separated b (y :: l))).
  assert (String.concat a (b :: separated b (y :: l))
          = b +:+ a +:+ String.concat a (separated b (y :: l))) as ->.
  { simpl. by destruct l. }
  rewrite IH.
  change (String.concat (a +:+ b +:+ a) (x :: y :: l))
    with (x +:+ (a +:+ b +:+ a) +:+ String.concat (a +:+ b +:+ a) (y :: l)).
  by rewrite !string_app_assoc.
Qed.

(** The loop of lines 111-114 reads the cache and leaves the state alone. *)
Lemma collect_previous_spec (steps : list Z) (slots ol pc : list (option string)) (s : state) :
  Forall2 (fun i b => 0 <= i /\ previous_llm_code s !! Z.to_nat i = Some b) steps slots ->
  collect_previous steps ol pc s
    = (s, Ok (ol ++ flat_map (fun b => [b] ++ [Some "------"]) slots, pc ++ slots)).
Proof.
  intros Hall. revert ol pc.
  induction Hall as [|i b steps slots [Hi Hb] _ IH]; intros ol pc; simpl.
  - by rewrite !app_nil_r.
  - run. rewrite (getitem_nonneg _ _ Hi), Hb. simpl. rewrite IH.
    by rewrite <- !app_assoc.
Qed.

Lemma collect_previous_state (steps : list Z) (ol pc : list (option string)) (s : state) :
  fst (collect_previous steps ol pc s) = s.
Proof.
  revert ol pc. induction steps as [|i steps IH]; intros ol pc; simpl; [done|].
  run. destruct (getitem (previous_llm_code s) i); simpl; [apply IH|done].
Qed.

Lemma range_take (n : nat) (c : list (option string)) :
  (n <= length c)%nat ->
  Forall2 (fun i b => 0 <= i /\ c !! Z.to_nat i = Some b) (range (Z.of_nat n)) (take n c).
Proof.
  induction n as [|n IH]; intros Hn; [by rewrite range_nonpos|].
  replace (Z.of_nat (S n)) with (Z.of_nat n + 1) by lia.
  rewrite range_succ by lia.
  destruct (lookup_lt_is_Some_2 c n) as [b Hb]; [lia|].
  rewrite (take_S_r _ _ _ Hb). apply Forall2_app; [apply IH; lia|].
  constructor; [|constructor]. split; [lia|]. by rewrite Nat2Z.id.
Qed.

Lemma process_problem_steps_state (prob_data : problem) (num_steps : Z) (s : state) :
  fst (process_problem_steps prob_data num_steps s) = s.
Proof.
  unfold process_problem_steps. unfold bind at 1.
  pose proof (collect_previous_state (range (num_steps - 1)) [] [] s) as Hst.
  destruct (collect_previous _ _ _ s) as [s1 [[ol pc]|e]]; simpl in Hst; subst s1; [|done].
  run. repeat (match goal with |- context [match ?r with Ok _ => _ | Raise _ => _ end] =>
                 destruct r; simpl; try done end).
Qed.

Lemma generate_prompt_with_steps_state (prob_data : problem) (num_steps : Z)
    (prompt_template : string) (s : state) :
  fst (generate_prompt_with_steps prob_data num_steps prompt_template s) = s.
Proof.
  unfold generate_prompt_with_steps. unfold bind at 1.
  pose proof (process_problem_steps_state prob_data num_steps s) as Hst.
  destruct (process_problem_steps _ _ s) as [s1 [[[a b] c]|e]]; simpl in Hst; subst s1; [|done].
  case_bool_decide; [done|]. run. by destruct (format _ _ _ _).
Qed.

(** What lines 106-121 return when the slots of the earlier steps hold
    [slots] and the sub-step asked for is [st]. *)
Lemma process_problem_steps_slots (prob_data : problem) (num_steps : Z) (s : state)
    (st : sub_step) :
  1 <= num_steps ->
  (Z.to_nat (num_steps - 1) <= length (previous_llm_code s))%nat ->
  sub_steps prob_data !! Z.to_nat (num_steps - 1) = Some st ->
  let slots := take (Z.to_nat (num_steps - 1)) (previous_llm_code s) in
  process_problem_steps prob_data num_steps s
    = (s, match join (nl +:+ nl) (drop_last (flat_map (fun b => [b] ++ [Some "------"]) slots)) with
          | Ok output_str =>
              match join nl slots with
              | Ok previous_code_str => Ok (output_str, next_step_text st, previous_code_str)
              | Raise e => Raise e
              end
          | Raise e => Raise e
          end).
Proof.
  intros Hk Hlen Hst slots. unfold process_problem_steps. unfold bind at 1.
  rewrite (collect_previous_spec _ slots).
  2:{ subst slots. replace (num_steps - 1) with (Z.of_nat (Z.to_nat (num_steps - 1))) at 1 by lia.
      by apply range_take. }
  simpl. unfold process_problem_code. run.
  rewrite getitem_nonneg by lia. rewrite Hst. simpl.
  destruct (join (nl +:+ nl) _); [|done]. by destruct (join nl slots).
Qed.

End Assembly.

Lemma next_step_text_nonempty (st : sub_step) : next_step_text st <> "".
Proof. unfold next_step_text, nl. by destruct (step_description_prompt st). Qed.

Section AssemblyResults.
Context `{Scicode}.

(** Whatever the cache holds, a next-step section that lines 116-119
    produce is that of a sub-step of the problem. *)
Lemma process_problem_steps_next_step (prob_data : problem) (num_steps : Z) (s s' : state)
    (a b c : string) :
  process_problem_steps prob_data num_steps s = (s', Ok (a, b, c)) ->
  exists st, st ∈ sub_steps prob_data /\ b = next_step_text st.
Proof.
  unfold process_problem_steps, process_problem_code. unfold bind at 1.
  destruct (collect_previous _ _ _ s) as [s1 [[ol pc]|e]]; [|done].
  run. unfold getitem.
  destruct (py_index _ _) as [n|]; [|done].
  destruct (sub_steps prob_data !! n) as [st|] eqn:Hst; [|done]. simpl.
  destruct (join (nl +:+ nl) (drop_last ol)); [|done]. simpl.
  destruct (join nl pc); [|done]. simpl.
  intros [= _ _ <- _]. exists st. split; [|done]. by eapply list_elem_of_lookup_2.
Qed.

(** Lines 123-135 when the slots of the earlier steps hold the bodies
    [bodies]. *)
Lemma generate_prompt_with_steps_bodies (prob_data : problem) (num_steps : Z)
    (prompt_template : string) (s : state) (bodies : list string) (st : sub_step) :
  1 <= num_steps ->
  take (Z.to_nat (num_steps - 1)) (previous_llm_code s) = Some <$> bodies ->
  length bodies = Z.to_nat (num_steps - 1) ->
  sub_steps prob_data !! Z.to_nat (num_steps - 1) = Some st ->
  process_problem_steps prob_data num_steps s
    = (s, Ok (String.concat (nl +:+ nl) (separated "------" bodies),
              next_step_text st, String.concat nl bodies))
  /\ generate_prompt_with_steps prob_data num_steps prompt_template s
    = (s, match format prompt_template
                  (String.concat (nl +:+ nl) (separated "------" bodies))
                  (next_step_text st) (required_dependencies prob_data) with
          | Ok prompt =>
              Ok (prompt, required_dependencies prob_data +:+ nl
                            +:+ String.concat nl bodies +:+ nl)
          | Raise e => Raise e
          end).
Proof.
  intros Hk Htake Hlen Hst.
  assert (process_problem_steps prob_data num_steps s
    = (s, Ok (String.concat (nl +:+ nl) (separated "------" bodies),
              next_step_text st, String.concat nl bodies))) as Hsteps.
  { rewrite (process_problem_steps_slots _ _ _ st Hk); [|..|done].
    - rewrite Htake, drop_last_separated, !join_fmap_Some. done.
    - rewrite <- Hlen, <- (length_fmap Some bodies), <- Htake, length_take. lia. }
  split; [done|]. unfold generate_prompt_with_steps. unfold bind at 1. rewrite Hsteps.
  rewrite bool_decide_eq_false_2 by apply next_step_text_nonempty.
  run. by destruct (format _ _ _ _).
Qed.

End AssemblyResults.

(** ** Claims on prompt assembly *)

(** C5.  When the cache holds the bodies of steps [1..num_steps-1], the
    prior-steps text handed to the template is these bodies joined by a blank
    line with the token "------" between consecutive bodies and none after the
    last one; the next-step text is the description of the step, a blank
    line, and the block made of the function header, a blank line and the
    return line; the prompt is the template rendered on these two texts and
    the dependencies. *)
Theorem prompt_sections `{Scicode} (prob_data : problem) (num_steps : Z)
    (prompt_template : string) (s : state) (bodies : list string) (st : sub_step) :
  1 <= num_steps ->
  take (Z.to_nat (num_steps - 1)) (previous_llm_code s) = Some <$> bodies ->
  length bodies = Z.to_nat (num_steps - 1) ->
  sub_steps prob_data !! Z.to_nat (num_steps - 1) = Some st ->
  let problem_steps_str := String.concat (nl +:+ nl) (separated "------" bodies) in
  let next_step_str :=
    step_description_prompt st +:+ (nl +:+ nl)
      +:+ (function_header st +:+ nl +:+ nl +:+ return_line st) in
  problem_steps_str = String.concat (nl +:+ nl +:+ "------" +:+ nl +:+ nl) bodies
  /\ (exists previous_code_str,
        process_problem_steps prob_data num_steps s
          = (s, Ok (problem_steps_str, next_step_str, previous_code_str)))
  /\ (forall s' prompt previous_code,
        generate_prompt_with_steps prob_data num_steps prompt_template s
          = (s', Ok (prompt, previous_code)) ->
        format prompt_template problem_steps_str next_step_str
          (required_dependencies prob_data) = Ok prompt)
  /\ (forall prompt,
        format prompt_template problem_steps_str next_step_str
          (required_dependencies prob_data) = Ok prompt ->
        exists previous_code,
          generate_prompt_with_steps prob_data num_steps prompt_template s
            = (s, Ok (prompt, previous_code))).
Proof.
  intros Hk Htake Hlen Hst problem_steps_str next_step_str.
  destruct (generate_prompt_with_steps_bodies prob_data num_steps prompt_template s
              bodies st Hk Htake Hlen Hst) as [Hsteps Hprompt].
  split; [unfold problem_steps_str; by rewrite concat_separated|]. split; [by eexists|]. split.
  - intros s' prompt previous_code. rewrite Hprompt.
    fold problem_steps_str. change (next_step_text st) with next_step_str.
    destruct (format _ _ _ _); [|done]. by intros [= _ -> _].
  - intros prompt Hfmt. rewrite Hprompt.
    fold problem_steps_str. change (next_step_text st) with next_step_str.
    rewrite Hfmt. by eexists.
Qed.

(** C6, as amended.  The "previous code" string that prompt assembly returns
    is the dependencies, a newline, the bodies of the earlier steps joined by
    newlines, and a closing newline. *)
Theorem previous_code_string `{Scicode} (prob_data : problem) (num_steps : Z)
    (prompt_template : string) (s s' : state) (bodies : list string) (st : sub_step)
    (prompt previous_code : string) :
  1 <= num_steps ->
  take (Z.to_nat (num_steps - 1)) (previous_llm_code s) = Some <$> bodies ->
  length bodies = Z.to_nat (num_steps - 1) ->
  sub_steps prob_data !! Z.to_nat (num_steps - 1) = Some st ->
  generate_prompt_with_steps prob_data num_steps prompt_template s
    = (s', Ok (prompt, previous_code)) ->
  previous_code
    = required_dependencies prob_data +:+ nl +:+ String.concat nl bodies +:+ nl.
Proof.
  intros Hk Htake Hlen Hst.
  destruct (generate_prompt_with_steps_bodies prob_data num_steps prompt_template s
              bodies st Hk Htake Hlen Hst) as [_ ->].
  destruct (format _ _ _ _); [|done]. by intros [= _ _ <-].
Qed.

(** C10.  The [assert] of line 130 never fires: the next-step section is the
    description, two newlines and the header block, hence never empty, and
    prompt assembly behaves as it would with the [assert] taken out. *)
Theorem next_step_assert_unreachable `{Scicode} (prob_data : problem) (num_steps : Z)
    (prompt_template : string) (s : state) :
  generate_prompt_with_steps prob_data num_steps prompt_template s
    = generate_prompt_unchecked prob_data num_steps prompt_template s
  /\ forall s' problem_steps_str next_step_str previous_code_str,
       process_problem_steps prob_data num_steps s
         = (s', Ok (problem_steps_str, next_step_str, previous_code_str)) ->
       next_step_str <> ""
       /\ exists st, st ∈ sub_steps prob_data
            /\ next_step_str
                 = step_description_prompt st +:+ (nl +:+ nl)
                     +:+ (function_header st +:+ nl +:+ nl +:+ return_line st).
Proof.
  split.
  - unfold generate_prompt_with_steps, generate_prompt_unchecked, bind at 1 3.
    destruct (process_problem_steps _ _ s) as [s1 [[[a b] c]|e]] eqn:Hsteps; [|done].
    apply process_problem_steps_next_step in Hsteps as (st & _ & ->).
    by rewrite bool_decide_eq_false_2 by apply next_step_text_nonempty.
  - intros s' a b c Hsteps.
    apply process_problem_steps_next_step in Hsteps as (st & Hin & ->).
    split; [apply next_step_text_nonempty|by exists st].
Qed.

Lemma prompt_sections_witness :
  exists previous_code_str,
    process_problem_steps Demo.P1 2 (State [Some "def f_a(): pass"; None] ∅ [] [])
      = (State [Some "def f_a(): pass"; None] ∅ [] [],
         Ok ("def f_a(): pass",
             "desc b" +:+ (nl +:+ nl) +:+ ("f_b" +:+ nl +:+ nl +:+ "return b"),
             previous_code_str)).
Proof.
  destruct (prompt_sections (H := Demo.scicode) Demo.P1 2 "T"
              (State [Some "def f_a(): pass"; None] ∅ [] [])
              ["def f_a(): pass"] (Demo.step "b")) as (_ & Hsections & _).
  - lia.
  - reflexivity.
  - reflexivity.
  - reflexivity.
  - exact Hsections.
Defined.

Lemma previous_code_string_witness :
  "import numpy as np" +:+ nl +:+ nl
    = required_dependencies Demo.one_step +:+ nl +:+ String.concat nl [] +:+ nl.
Proof.
  apply (previous_code_string (H := Demo.scicode) Demo.one_step 1 "T"
           (State [None] ∅ [] []) (State [None] ∅ [] []) []
           (SubStep "Compute sum" ("def f(x):" +:+ nl +:+ "    '''doc'''") "    return sum(x)")
           ("[|Compute sum" +:+ nl +:+ nl +:+ "def f(x):" +:+ nl +:+ "    '''doc'''"
              +:+ nl +:+ nl +:+ "    return sum(x)|import numpy as np]")).
  - lia.
  - reflexivity.
  - reflexivity.
  - reflexivity.
  - reflexivity.
Defined.

(** C6, as stated, fails on the one-step scenario: the string ends in two
    newlines, not one. *)
Lemma previous_code_one_step_counterexample :
  match snd (generate_prompt_with_steps (H := Demo.scicode) Demo.one_step 1 "T"
               (State [None] ∅ [] [])) with
  | Ok (_, previous_code) =>
      previous_code = "import numpy as np" +:+ nl +:+ nl
      /\ previous_code <> "import numpy as np" +:+ nl
  | Raise _ => False
  end.
Proof. vm_compute. split; [reflexivity|discriminate]. Qed.

Lemma next_step_assert_unreachable_witness :
  nl +:+ nl +:+ nl +:+ nl <> ""
  /\ exists st, st ∈ sub_steps Demo.blank
       /\ nl +:+ nl +:+ nl +:+ nl
            = step_description_prompt st +:+ (nl +:+ nl)
                +:+ (function_header st +:+ nl +:+ nl +:+ return_line st).
Proof.
  apply (proj2 (next_step_assert_unreachable (H := Demo.scicode) Demo.blank 1 "T"
                  (State [None] ∅ [] []))
           (State [None] ∅ [] []) "" (nl +:+ nl +:+ nl +:+ nl) "").
  reflexivity.
Defined.

(** ** Resolution of the earlier steps *)

Lemma frame_refl (written : list Path) (bound : nat) (s : state) : frame written bound s s.
Proof. by split. Qed.

Lemma frame_trans (written : list Path) (bound : nat) (s1 s2 s3 : state) :
  frame written bound s1 s2 -> frame written bound s2 s3 -> frame written bound s1 s3.
Proof.
  intros [Hf1 Hi1 Ho1 Hl1 Hs1] [Hf2 Hi2 Ho2 Hl2 Hs2]. split.
  - intros p Hp. by rewrite Hf2, Hf1.
  - by rewrite Hi2.
  - by rewrite Ho2.
  - by rewrite Hl2.
  - intros j Hj. by rewrite Hs2, Hs1.
Qed.

Lemma frame_weaken (written : list Path) (bound bound' : nat) (s s' : state) :
  (bound <= bound')%nat -> frame written bound s s' -> frame written bound' s s'.
Proof.
  intros Hle [Hf Hi Ho Hl Hs]. split; try done. intros j Hj. apply Hs. lia.
Qed.

Section Resolution.
Context `{Scicode}.
Variables (self : Gencode) (prob_data : problem) (num_steps : Z) (model : string).

(** One iteration of the loop of lines 61-78, case by case. *)
Lemma resolve_prev_step_spec (prev_step : Z) (s : state) :
  0 <= prev_step ->
  resolve_prev_step self prob_data num_steps model prev_step s =
    match previous_llm_code s !! Z.to_nat prev_step with
    | None => (s, Raise IndexError)
    | Some (Some _) => (s, Ok tt)
    | Some None =>
        match files s !! prev_file_path self model (problem_id prob_data) prev_step with
        | None =>
            (s, Raise (Exception
                         (ahead_of_step (problem_id prob_data) num_steps (prev_step + 1))))
        | Some content =>
            match sub_steps prob_data !! Z.to_nat prev_step with
            | None => (s, Raise IndexError)
            | Some st =>
                match extract_function_name (function_header st) with
                | Raise e => (s, Raise e)
                | Ok name =>
                    (set_previous_llm_code
                       (<[Z.to_nat prev_step := get_function_from_code content name]>
                          (previous_llm_code s)) s, Ok tt)
                end
            end
        end
    end.
Proof.
  intros Hi. unfold resolve_prev_step. run. rewrite !getitem_nonneg by done.
  destruct (previous_llm_code s !! Z.to_nat prev_step) as [[b|]|] eqn:Hslot; simpl; try done.
  unfold is_file, read_text.
  destruct (files s !! prev_file_path self model (problem_id prob_data) prev_step)
    as [content|] eqn:Hfile; simpl; [|done].
  rewrite ?Hfile. simpl.
  destruct (sub_steps prob_data !! Z.to_nat prev_step) as [st|]; simpl; [|done].
  destruct (extract_function_name _) as [name|e]; simpl; [|done].
  rewrite setitem_nonneg by done.
  apply lookup_lt_Some in Hslot.
  destruct (Z.ltb_spec prev_step (Z.of_nat (length (previous_llm_code s)))); [done|lia].
Qed.

(** An iteration writes no file, calls no model, and touches no slot but
    its own, whether it returns or raises. *)
Lemma resolve_prev_step_frame (prev_step : Z) (s : state) :
  0 <= prev_step ->
  frame [] (S (Z.to_nat prev_step)) s
    (fst (resolve_prev_step self prob_data num_steps model prev_step s)).
Proof.
  intros Hi. rewrite resolve_prev_step_spec by done.
  repeat case_match; simpl; try apply frame_refl.
  split; simpl; try done.
  - apply length_insert.
  - intros j Hj. apply list_lookup_insert_ne. lia.
Qed.

Lemma resolve_loop_frame (n : Z) (s : state) :
  frame [] (Z.to_nat n) s
    (fst (for_each (range n) (resolve_prev_step self prob_data num_steps model) s)).
Proof.
  apply (for_each_preserves (frame [] (Z.to_nat n))).
  - apply frame_refl.
  - apply frame_trans.
  - intros i s' Hin. apply elem_of_range in Hin.
    eapply frame_weaken; [|by apply resolve_prev_step_frame; lia]. lia.
Qed.

(** When the loop over the first [n] slots returns, each of them holds
    what [slot_resolved] says. *)
Lemma resolve_loop_slots (n : nat) (s s' : state) :
  for_each (range (Z.of_nat n)) (resolve_prev_step self prob_data num_steps model) s
    = (s', Ok tt) ->
  forall j : nat, (j < n)%nat ->
    exists v, previous_llm_code s' !! j = Some v
      /\ slot_resolved self prob_data model (files s) (previous_llm_code s) j v.
Proof.
  revert s'. induction n as [|n IH]; intros s' Hrun j Hj; [lia|].
  replace (Z.of_nat (S n)) with (Z.of_nat n + 1) in Hrun by lia.
  rewrite range_succ, for_each_app in Hrun by lia.
  pose proof (resolve_loop_frame (Z.of_nat n) s) as Hframe.
  destruct (for_each (range (Z.of_nat n)) _ s) as [s1 [[]|e]] eqn:Hloop; [|done].
  simpl in Hframe, Hrun. unfold bind, ret in Hrun.
  rewrite resolve_prev_step_spec in Hrun by lia.
  rewrite Nat2Z.id in *. destruct Hframe as [Hfiles _ _ Hlen Hslots].
  specialize (IH s1 eq_refl).
  destruct (previous_llm_code s1 !! n) as [[b|]|] eqn:Hn; [| |done].
  - injection Hrun as <-. destruct (decide (j = n)) as [->|Hne].
    + exists (Some b). split; [done|]. left. exists b. by rewrite <- Hslots.
    + apply IH. lia.
  - rewrite Hfiles in Hrun by apply not_elem_of_nil.
    destruct (files s !! _) as [content|] eqn:Hfile; [|done].
    destruct (sub_steps prob_data !! n) as [st|] eqn:Hst; [|done].
    destruct (extract_function_name _) as [name|e] eqn:Hname; [|done].
    injection Hrun as <-. simpl. destruct (decide (j = n)) as [->|Hne].
    + exists (get_function_from_code content name). split.
      * apply list_lookup_insert_eq. by eapply lookup_lt_Some.
      * right. rewrite <- Hslots by lia. split; [done|]. by exists content, st, name.
    + rewrite list_lookup_insert_ne by done. apply IH. lia.
Qed.

(** Lines 56-60, then the loop. *)
Lemma resolve_previous_steps_unfold (tot_steps : Z) (s : state) :
  resolve_previous_steps self prob_data num_steps tot_steps model s =
    let s0 := set_previous_llm_code
                (cache_after_reset num_steps tot_steps (previous_llm_code s)) s in
    if num_steps =? 1 then (s0, Ok tt)
    else for_each (range (num_steps - 1))
           (resolve_prev_step self prob_data num_steps model) s0.
Proof.
  unfold resolve_previous_steps, cache_after_reset.
  destruct (num_steps =? 1); simpl; [done|]. run.
  destruct (negb _); simpl; [done|]. by destruct s.
Qed.

End Resolution.

Lemma cache_after_reset_none_list (num_steps tot_steps : Z) :
  cache_after_reset num_steps tot_steps (none_list tot_steps) = none_list tot_steps.
Proof. unfold cache_after_reset. by destruct (_ || _). Qed.

Lemma cache_after_reset_when (num_steps tot_steps : Z) (cache : list (option string)) :
  num_steps = 1 \/ Z.of_nat (length cache) <> tot_steps ->
  cache_after_reset num_steps tot_steps cache = none_list tot_steps.
Proof.
  unfold cache_after_reset. intros [->|Hne]; [done|].
  destruct (Z.eqb_spec (Z.of_nat (length cache)) tot_steps); [done|].
  by rewrite orb_true_r.
Qed.

Lemma length_cache_after_reset (num_steps tot_steps : Z) (cache : list (option string)) :
  0 <= tot_steps -> Z.of_nat (length (cache_after_reset num_steps tot_steps cache)) = tot_steps.
Proof.
  intros Htot. unfold cache_after_reset.
  destruct (num_steps =? 1); simpl; [by apply length_none_list|].
  destruct (Z.eqb_spec (Z.of_nat (length cache)) tot_steps); simpl;
    [done|by apply length_none_list].
Qed.

(** ** Claims on the cache *)

(** C7.  Called with target step 1, or with a later step while the length of
    the cache differs from the total step count, lines 56-60 replace the
    cache by [tot_steps] unresolved slots before the loop over the earlier
    steps starts: resolution, and the whole call, run as they would from that
    cache. *)
Theorem cache_reset_before_resolution `{Scicode} (self : Gencode) (prob_data : problem)
    (num_steps tot_steps : Z) (model prompt_template : string) (save : bool) (s : state) :
  num_steps = 1 \/ Z.of_nat (length (previous_llm_code s)) <> tot_steps ->
  let s0 := set_previous_llm_code (none_list tot_steps) s in
  resolve_previous_steps self prob_data num_steps tot_steps model s
    = (if num_steps =? 1 then (s0, Ok tt)
       else for_each (range (num_steps - 1))
              (resolve_prev_step self prob_data num_steps model) s0)
  /\ (forall j : nat, Z.of_nat j < tot_steps -> previous_llm_code s0 !! j = Some None)
  /\ (0 <= tot_steps -> Z.of_nat (length (previous_llm_code s0)) = tot_steps)
  /\ generate_response_with_steps self prob_data num_steps tot_steps model prompt_template save s
     = generate_response_with_steps self prob_data num_steps tot_steps model prompt_template
         save s0.
Proof.
  intros Hreset s0.
  assert (resolve_previous_steps self prob_data num_steps tot_steps model s
          = resolve_previous_steps self prob_data num_steps tot_steps model s0) as Hsame.
  { rewrite !resolve_previous_steps_unfold. simpl.
    by rewrite cache_after_reset_none_list, cache_after_reset_when. }
  split; [|split; [|split]].
  - rewrite resolve_previous_steps_unfold. simpl. by rewrite cache_after_reset_when.
  - intros j Hj. simpl. rewrite lookup_none_list. by case_decide.
  - intros Htot. simpl. by apply length_none_list.
  - unfold generate_response_with_steps. unfold bind at 1 5. by rewrite Hsame.
Qed.

Lemma cache_reset_before_resolution_witness :
  resolve_previous_steps (H := Demo.scicode) Demo.gcode Demo.P1 1 2 "gpt-4o"
      (State [Some "stale"; Some "stale"; Some "stale"] ∅ [] [])
    = (State [None; None] ∅ [] [], Ok tt).
Proof.
  apply (cache_reset_before_resolution (H := Demo.scicode) Demo.gcode Demo.P1 1 2
           "gpt-4o" "T" true (State [Some "stale"; Some "stale"; Some "stale"] ∅ [] [])).
  left. reflexivity.
Defined.

(** C4 fails on the code.  The response file of step 1 is on disk but
    defines no function of the name the header of step 1 gives, so
    [get_function_from_code] answers [None], and line 76 stores it without
    a test: the resolution phase of the call for step 2 returns with slot 0
    still unresolved.  The code means to stop on an earlier step it cannot
    resolve (with the file absent, line 78 raises and names the step); here
    the call goes on and fails at the [join] of line 118 with a bare
    [TypeError], before any model is invoked. *)
Theorem not_found_leaves_slot_unresolved :
  let resolved :=
    resolve_previous_steps (H := Demo.scicode) Demo.gcode Demo.P1 2 2 "gpt-4o"
      Demo.other_function in
  let out :=
    generate_response_with_steps (H := Demo.scicode) Demo.gcode Demo.P1 2 2 "gpt-4o" "T"
      true Demo.other_function in
  files Demo.other_function !! ["out"; "gpt-4o"; "1.1.py"] = Some "x = 1"
  /\ snd resolved = Ok tt
  /\ previous_llm_code (fst resolved) = [None; None]
  /\ snd out = Raise TypeError
  /\ invocations (fst out) = []
  /\ snd (resolve_previous_steps (H := Demo.scicode) Demo.gcode Demo.P1 2 2 "gpt-4o"
            Demo.empty_state)
     = Raise (Exception "Generating 1 step 2 ahead of step 1.").
Proof. by vm_compute. Qed.

(** ** Exceptions leave the driver *)

Lemma for_each_raise {A} (xs ys : list A) (x : A) (body : A -> M unit) (s s1 s2 : state)
    (e : exn) :
  for_each xs body s = (s1, Ok tt) ->
  body x s1 = (s2, Raise e) ->
  for_each (xs ++ x :: ys) body s = (s2, Raise e).
Proof.
  intros Hxs Hx. rewrite for_each_app, Hxs. simpl. unfold bind. by rewrite Hx.
Qed.

Lemma range_split (k n : Z) :
  0 <= k < n -> exists rest, range n = range k ++ k :: rest.
Proof.
  intros Hk. unfold range.
  replace (Z.to_nat n) with (Z.to_nat k + S (Z.to_nat (n - k - 1)))%nat by lia.
  rewrite seq_app, fmap_app. simpl. rewrite Z2Nat.id by lia. by eexists.
Qed.

(** [main] has no handler: an exception raised by the call for a step is
    the outcome of the run. *)
Lemma main_propagates `{Scicode} (model : string) (output_dir prompt_dir : Path)
    (temperature : Q) (before after : list problem) (prob_data : problem) (num_steps : Z)
    (s_begin s_problem s s1 : state) (e : exn) :
  let gcode := Build_Gencode model output_dir prompt_dir temperature in
  let steps := Z.of_nat (length (sub_steps prob_data)) in
  1 <= num_steps <= steps ->
  fixture_override (problem_id prob_data) (num_steps - 1) = false ->
  for_each before (generate_problem gcode model) (set_previous_llm_code [] s_begin)
    = (s_problem, Ok tt) ->
  for_each (range (num_steps - 1)) (generate_step gcode model prob_data steps)
      (add_stdout ("Generating " +:+ problem_id prob_data +:+ "...") s_problem)
    = (s, Ok tt) ->
  generate_response_with_steps gcode prob_data num_steps steps model
    DEFAULT_PROMPT_TEMPLATE true s = (s1, Raise e) ->
  main model output_dir prompt_dir temperature (before ++ prob_data :: after) s_begin
    = (s1, Raise e).
Proof.
  intros gcode steps Hk Hover Hbefore Hsteps Hcall.
  unfold main. fold gcode. unfold bind at 1, modify at 1.
  apply for_each_raise with (s1 := s_problem); [done|].
  unfold generate_problem. fold steps. unfold bind at 1, modify at 1.
  destruct (range_split (num_steps - 1) steps) as [rest ->]; [lia|].
  apply for_each_raise with (s1 := s); [done|].
  unfold generate_step. rewrite Hover.
  by replace (num_steps - 1 + 1) with num_steps by lia.
Qed.

(** C2.  In a call for step [num_steps > 1], when the loop over the earlier
    steps reaches step [j] (0-based), finds its slot unresolved and finds no
    file at its source path (the fixture file for the pairs of the override
    table, the response file otherwise), the call raises an exception whose
    message names step [j+1]; nothing was written and no model was called.
    The driver does not handle it: the run of [main] ends with it. *)
Theorem missing_prerequisite_raises `{Scicode} (self : Gencode) (prob_data : problem)
    (num_steps tot_steps : Z) (model prompt_template : string) (save : bool)
    (s s1 : state) (j : Z) :
  0 <= j < num_steps - 1 ->
  let cache0 := cache_after_reset num_steps tot_steps (previous_llm_code s) in
  for_each (range j) (resolve_prev_step self prob_data num_steps model)
      (set_previous_llm_code cache0 s) = (s1, Ok tt) ->
  cache0 !! Z.to_nat j = Some None ->
  files s !! prev_file_path self model (problem_id prob_data) j = None ->
  let e := Exception ("Generating " +:+ problem_id prob_data +:+ " step " +:+ str num_steps
                        +:+ " ahead of step " +:+ str (j + 1) +:+ ".") in
  generate_response_with_steps self prob_data num_steps tot_steps model prompt_template save s
    = (s1, Raise e)
  /\ files s1 = files s
  /\ invocations s1 = invocations s
  /\ forall before after s_begin s_problem,
       self = Build_Gencode model (self_output_dir self) (self_prompt_dir self)
                (self_temperature self) ->
       prompt_template = DEFAULT_PROMPT_TEMPLATE -> save = true ->
       tot_steps = Z.of_nat (length (sub_steps prob_data)) ->
       num_steps <= tot_steps ->
       fixture_override (problem_id prob_data) (num_steps - 1) = false ->
       for_each before (generate_problem self model) (set_previous_llm_code [] s_begin)
         = (s_problem, Ok tt) ->
       for_each (range (num_steps - 1)) (generate_step self model prob_data tot_steps)
           (add_stdout ("Generating " +:+ problem_id prob_data +:+ "...") s_problem)
         = (s, Ok tt) ->
       main model (self_output_dir self) (self_prompt_dir self) (self_temperature self)
         (before ++ prob_data :: after) s_begin = (s1, Raise e).
Proof.
  intros Hj cache0 Hreach Hslot Hfile e.
  set (s0 := set_previous_llm_code cache0 s) in *.
  pose proof (resolve_loop_frame self prob_data num_steps model j s0) as Hframe.
  rewrite Hreach in Hframe. simpl in Hframe. destruct Hframe as [Hfiles Hinv _ _ Hkeep].
  assert (files s1 = files s) as Hfs.
  { apply map_eq. intros p. by rewrite Hfiles by apply not_elem_of_nil. }
  assert (resolve_previous_steps self prob_data num_steps tot_steps model s = (s1, Raise e))
    as Hres.
  { rewrite resolve_previous_steps_unfold. simpl. fold cache0. fold s0.
    destruct (Z.eqb_spec num_steps 1); [lia|].
    destruct (range_split j (num_steps - 1)) as [rest ->]; [lia|].
    apply for_each_raise with (s1 := s1); [done|].
    rewrite resolve_prev_step_spec by lia.
    rewrite Hkeep by lia. simpl. rewrite Hslot, Hfs, Hfile. done. }
  assert (generate_response_with_steps self prob_data num_steps tot_steps model
            prompt_template save s = (s1, Raise e)) as Hcall.
  { unfold generate_response_with_steps. unfold bind at 1. by rewrite Hres. }
  split; [done|]. split; [done|]. split; [done|].
  intros before after s_begin s_problem Hself -> -> -> Hle Hover Hbefore Hsteps.
  rewrite Hself in Hbefore, Hsteps, Hcall.
  eapply main_propagates; [|done..]. lia.
Qed.

Lemma missing_prerequisite_raises_witness :
  main (H := Demo.scicode) "gpt-4o" ["out"] ["prompts"] 0%Q [Demo.P62] Demo.empty_state
    = (State [None; None] ∅ [] ["Generating 62..."],
       Raise (Exception "Generating 62 step 2 ahead of step 1.")).
Proof.
  destruct (missing_prerequisite_raises (H := Demo.scicode) Demo.gcode Demo.P62 2 2
              "gpt-4o" "T" true
              (State [] ∅ [] ["Generating 62..."])
              (State [None; None] ∅ [] ["Generating 62..."]) 0)
    as (_ & _ & _ & Hmain).
  - lia.
  - reflexivity.
  - reflexivity.
  - reflexivity.
  - apply (Hmain [] [] Demo.empty_state (State [] ∅ [] [])); first [reflexivity | lia].
Defined.

(** ** Generation of a step *)

Section Generation.
Context `{Scicode}.
Variables (self : Gencode) (prob_data : problem) (num_steps tot_steps : Z) (model : string).

(** Lines 56-78 write no file, call no model, and leave slot
    [num_steps-1] and the later ones as lines 56-60 left them, whether they
    return or raise. *)
Lemma resolve_previous_steps_frame (s : state) :
  frame [] (Z.to_nat (num_steps - 1))
    (set_previous_llm_code (cache_after_reset num_steps tot_steps (previous_llm_code s)) s)
    (fst (resolve_previous_steps self prob_data num_steps tot_steps model s)).
Proof.
  rewrite resolve_previous_steps_unfold. simpl.
  destruct (num_steps =? 1); [apply frame_refl|apply resolve_loop_frame].
Qed.

Lemma resolve_previous_steps_files (s : state) :
  files (fst (resolve_previous_steps self prob_data num_steps tot_steps model s)) = files s.
Proof.
  destruct (resolve_previous_steps_frame s) as [Hfiles _ _ _ _].
  apply map_eq. intros p. by rewrite Hfiles by apply not_elem_of_nil.
Qed.

(** A call that finds the response file of its step. *)
Lemma generate_response_with_steps_existing (prompt_template : string) (save : bool)
    (s : state) :
  is_Some (files s !! response_file_path self model (problem_id prob_data) num_steps) ->
  generate_response_with_steps self prob_data num_steps tot_steps model prompt_template save s
    = match resolve_previous_steps self prob_data num_steps tot_steps model s with
      | (s1, Raise e) => (s1, Raise e)
      | (s1, Ok _) =>
          match generate_prompt_with_steps prob_data num_steps prompt_template s1 with
          | (_, Raise e) => (s1, Raise e)
          | (_, Ok (prompt, _)) =>
              (if save
               then set_files (<[prompt_file_path self prob_data num_steps := prompt]>
                                 (files s1)) s1
               else s1, Ok tt)
          end
      end.
Proof.
  intros Hfile. unfold generate_response_with_steps. unfold bind at 1.
  pose proof (resolve_previous_steps_files s) as Hfiles.
  destruct (resolve_previous_steps _ _ _ _ _ s) as [s1 [[]|e]]; [|done]. simpl in Hfiles.
  unfold bind at 1.
  pose proof (generate_prompt_with_steps_state prob_data num_steps prompt_template s1) as Hst.
  destruct (generate_prompt_with_steps _ _ _ s1) as [s2 [[prompt pc]|e]];
    simpl in Hst; subst s2; [|done].
  unfold generate_if_absent, exists_. destruct save; run.
  - rewrite lookup_insert_ne by apply prompt_path_not_response_path.
    rewrite Hfiles. by rewrite bool_decide_eq_true_2.
  - rewrite Hfiles. by rewrite bool_decide_eq_true_2.
Qed.

End Generation.

(** C1.  When the response file of [(model, problem, num_steps)] exists at
    the time of the call, the call invokes no model, leaves that file as it
    is, writes no file but the prompt file, and leaves slot [num_steps-1]
    (and the later ones) of the cache as lines 56-60 left them.  The call
    returns exactly when resolution and prompt assembly do, and then, with
    [save] set, the prompt file holds the rendered prompt. *)
Theorem existing_response_skips_generation `{Scicode} (self : Gencode) (prob_data : problem)
    (num_steps tot_steps : Z) (model prompt_template : string) (save : bool)
    (s : state) (content : string) :
  files s !! response_file_path self model (problem_id prob_data) num_steps = Some content ->
  let out :=
    generate_response_with_steps self prob_data num_steps tot_steps model prompt_template
      save s in
  invocations (fst out) = invocations s
  /\ files (fst out) !! response_file_path self model (problem_id prob_data) num_steps
       = Some content
  /\ (forall j : nat, num_steps - 1 <= Z.of_nat j ->
        previous_llm_code (fst out) !! j
          = cache_after_reset num_steps tot_steps (previous_llm_code s) !! j)
  /\ (forall p, p <> prompt_file_path self prob_data num_steps ->
        files (fst out) !! p = files s !! p)
  /\ (save = false -> files (fst out) = files s)
  /\ (snd out = Ok tt ->
        exists s1 prompt previous_code,
          resolve_previous_steps self prob_data num_steps tot_steps model s = (s1, Ok tt)
          /\ generate_prompt_with_steps prob_data num_steps prompt_template s1
               = (s1, Ok (prompt, previous_code)))
  /\ (forall s1 prompt previous_code,
        resolve_previous_steps self prob_data num_steps tot_steps model s = (s1, Ok tt) ->
        generate_prompt_with_steps prob_data num_steps prompt_template s1
          = (s1, Ok (prompt, previous_code)) ->
        snd out = Ok tt
        /\ (save = true ->
            files (fst out) !! prompt_file_path self prob_data num_steps = Some prompt)).
Proof.
  intros Hfile out.
  pose proof (generate_response_with_steps_existing self prob_data num_steps tot_steps model
                prompt_template save s (ex_intro _ content Hfile)) as Hout.
  fold out in Hout.
  pose proof (resolve_previous_steps_frame self prob_data num_steps tot_steps model s)
    as [Hfiles Hinv _ _ Hkeep].
  pose proof (resolve_previous_steps_files self prob_data num_steps tot_steps model s) as Hfs.
  destruct (resolve_previous_steps self prob_data num_steps tot_steps model s)
    as [s1 [[]|e]] eqn:Hres; simpl in *.
  2:{ rewrite Hout. simpl. rewrite Hfs. split_and!; try done.
      intros j Hj. apply Hkeep. lia. }
  pose proof (generate_prompt_with_steps_state prob_data num_steps prompt_template s1) as Hst.
  destruct (generate_prompt_with_steps prob_data num_steps prompt_template s1)
    as [s2 [[prompt pc]|e]] eqn:Hgen; simpl in Hst; subst s2.
  2:{ rewrite Hout. simpl. rewrite Hfs. split_and!; try done.
      - intros j Hj. apply Hkeep. lia.
      - intros s1' prompt' pc' [= <-] Hgen'. by rewrite Hgen in Hgen'. }
  rewrite Hout. destruct save; simpl.
  - split_and!; try done.
    + rewrite lookup_insert_ne by apply prompt_path_not_response_path. by rewrite Hfs.
    + intros j Hj. apply Hkeep. lia.
    + intros p Hp. rewrite lookup_insert_ne by done. by rewrite Hfs.
    + intros _. by exists s1, prompt, pc.
    + intros s1' prompt' pc' [= <-] Hgen'. rewrite Hgen in Hgen'.
      injection Hgen' as <- _. split; [done|]. intros _. apply lookup_insert_eq.
  - split_and!; try done.
    + by rewrite Hfs.
    + intros j Hj. apply Hkeep. lia.
    + intros p Hp. by rewrite Hfs.
    + intros _. by exists s1, prompt, pc.
Qed.

Lemma existing_response_skips_generation_witness :
  files (fst (generate_response_with_steps (H := Demo.scicode) Demo.gcode Demo.P1 1 2
                "gpt-4o" "T" true Demo.step_1_done))
    !! ["out"; "gpt-4o"; "1.1.py"] = Some "def f_a(): pass".
Proof.
  destruct (existing_response_skips_generation (H := Demo.scicode) Demo.gcode Demo.P1 1 2
              "gpt-4o" "T" true Demo.step_1_done "def f_a(): pass") as (_ & Hkept & _).
  - reflexivity.
  - exact Hkept.
Defined.

(** ** The configuration of the model client *)

Lemma prefix_app (sub s : string) :
  String.prefix sub s = true <-> exists rest, s = sub +:+ rest.
Proof.
  revert s. induction sub as [|a sub IH]; intros s.
  - split; [by exists s|by destruct s].
  - destruct s as [|b s]; simpl.
    + split; [done|]. by intros [rest Hrest].
    + destruct (ascii_dec a b) as [->|Hne].
      * rewrite IH. split; intros [rest Hrest]; exists rest.
        -- by rewrite Hrest.
        -- by injection Hrest.
      * split; [done|]. intros [rest Hrest]. by injection Hrest.
Qed.

(** [sub in s] holds exactly when [sub] occurs in [s]. *)
Lemma str_in_spec (sub s : string) :
  str_in sub s = true <-> exists before rest, s = before +:+ sub +:+ rest.
Proof.
  induction s as [|c s IH]; cbn [str_in]; rewrite orb_true_iff, prefix_app.
  - split.
    + intros [[rest Hrest]|?]; [|done]. by exists "", rest.
    + intros ([|c before] & rest & Hs); [|done]. left. by exists rest.
  - rewrite IH. split.
    + intros [[rest Hrest]|(before & rest & ->)].
      * by exists "", rest.
      * by exists (String c before), rest.
    + intros ([|c' before] & rest & Hs).
      * left. by exists rest.
      * right. injection Hs as -> ->. by exists before, rest.
Qed.

Lemma model_kwargs_for (self : Gencode) (model : string) :
  kwargs_for (self_temperature self) model (model_kwargs self model).
Proof.
  unfold kwargs_for, model_kwargs. destruct (str_in "claude" model).
  - split_and!; [by simplify_map_eq..|]. intros k ? ?. by simplify_map_eq.
  - split_and!; [by simplify_map_eq..|]. intros k ? ?. by simplify_map_eq.
Qed.

Lemma invokes_refl (temperature : Q) (model : string) (s : state) :
  invokes temperature model s s.
Proof. exists []. by rewrite app_nil_r. Qed.

Lemma invokes_same (temperature : Q) (model : string) (s s' : state) :
  invocations s' = invocations s -> invokes temperature model s s'.
Proof. intros Hsame. exists []. by rewrite app_nil_r. Qed.

Lemma invokes_trans (temperature : Q) (model : string) (s1 s2 s3 : state) :
  invokes temperature model s1 s2 -> invokes temperature model s2 s3 ->
  invokes temperature model s1 s3.
Proof.
  intros (new1 & H1 & Hall1) (new2 & H2 & Hall2). exists (new1 ++ new2).
  rewrite H2, H1, app_assoc. split; [done|]. by apply Forall_app.
Qed.

Section Invocations.
Context `{Scicode}.

Lemma generate_if_absent_invokes (self : Gencode) (prob_data : problem) (num_steps : Z)
    (model prompt previous_code : string) (s : state) :
  let s' := fst (generate_if_absent self prob_data num_steps model prompt previous_code s) in
  invocations s' = invocations s
  \/ invocations s'
     = invocations s ++ [Invocation model (model_kwargs self model) prompt].
Proof.
  unfold generate_if_absent. run. destruct (negb _); [|by left]. right.
  unfold save_response_with_steps, write_text. run.
  destruct (get_model_function _ _ _ _); simpl; [|done].
  destruct (setitem _ _ _); simpl; done.
Qed.

Lemma generate_response_with_steps_invocations (self : Gencode) (prob_data : problem)
    (num_steps tot_steps : Z) (model prompt_template : string) (save : bool)
    (s s' : state) (r : result unit) :
  generate_response_with_steps self prob_data num_steps tot_steps model prompt_template
    save s = (s', r) ->
  invocations s' = invocations s
  \/ exists prompt,
       invocations s' = invocations s ++ [Invocation model (model_kwargs self model) prompt].
Proof.
  unfold generate_response_with_steps. unfold bind at 1.
  pose proof (resolve_previous_steps_frame self prob_data num_steps tot_steps model s)
    as [_ Hinv _ _ _].
  destruct (resolve_previous_steps _ _ _ _ _ s) as [s1 [[]|e]]; simpl in Hinv;
    [|intros [= <- _]; by left].
  unfold bind at 1.
  pose proof (generate_prompt_with_steps_state prob_data num_steps prompt_template s1) as Hst.
  destruct (generate_prompt_with_steps _ _ _ s1) as [s2 [[prompt pc]|e]];
    simpl in Hst; subst s2; [|intros [= <- _]; by left].
  unfold bind at 1.
  assert (exists s2, (if save
                      then save_prompt_with_steps self prob_data prompt num_steps tot_steps
                      else ret tt) s1 = (s2, Ok tt)
                     /\ invocations s2 = invocations s1) as (s2 & -> & Hinv2).
  { destruct save; eexists; split; done. }
  intros Hrun.
  pose proof (generate_if_absent_invokes self prob_data num_steps model prompt pc s2)
    as Hgen.
  rewrite Hrun in Hgen. simpl in Hgen. destruct Hgen as [Hsame|Hnew].
  - left. by rewrite Hsame, Hinv2.
  - right. exists prompt. by rewrite Hnew, Hinv2, Hinv.
Qed.

(** A call whose resolution and prompt assembly return, and that finds no
    response file, invokes the model once with the prompt it assembled. *)
Lemma generate_response_with_steps_absent (self : Gencode) (prob_data : problem)
    (num_steps tot_steps : Z) (model prompt_template : string) (save : bool)
    (s s1 : state) (prompt previous_code : string) :
  files s !! response_file_path self model (problem_id prob_data) num_steps = None ->
  resolve_previous_steps self prob_data num_steps tot_steps model s = (s1, Ok tt) ->
  generate_prompt_with_steps prob_data num_steps prompt_template s1
    = (s1, Ok (prompt, previous_code)) ->
  invocations (fst (generate_response_with_steps self prob_data num_steps tot_steps model
                      prompt_template save s))
    = invocations s ++ [Invocation model (model_kwargs self model) prompt].
Proof.
  intros Hfile Hres Hgen.
  pose proof (resolve_previous_steps_frame self prob_data num_steps tot_steps model s)
    as [_ Hinv _ _ _].
  pose proof (resolve_previous_steps_files self prob_data num_steps tot_steps model s) as Hfs.
  rewrite Hres in Hinv, Hfs. simpl in Hinv, Hfs.
  unfold generate_response_with_steps. unfold bind at 1. rewrite Hres.
  unfold bind at 1. rewrite Hgen.
  unfold generate_if_absent, exists_, save_response_with_steps, write_text.
  destruct save; run.
  - rewrite lookup_insert_ne by apply prompt_path_not_response_path.
    rewrite Hfs, Hfile. simpl.
    destruct (get_model_function _ _ _ _); simpl; [|by rewrite Hinv].
    destruct (setitem _ _ _); simpl; by rewrite Hinv.
  - rewrite Hfs, Hfile. simpl.
    destruct (get_model_function _ _ _ _); simpl; [|by rewrite Hinv].
    destruct (setitem _ _ _); simpl; by rewrite Hinv.
Qed.

Lemma generate_response_with_steps_invokes (self : Gencode) (prob_data : problem)
    (num_steps tot_steps : Z) (model prompt_template : string) (save : bool) (s : state) :
  invokes (self_temperature self) model s
    (fst (generate_response_with_steps self prob_data num_steps tot_steps model
            prompt_template save s)).
Proof.
  destruct (generate_response_with_steps _ _ _ _ _ _ _ s) as [s' r] eqn:Hrun.
  destruct (generate_response_with_steps_invocations _ _ _ _ _ _ _ _ _ _ Hrun)
    as [Hsame|[prompt Hnew]]; simpl.
  - exists []. by rewrite app_nil_r.
  - eexists. split; [exact Hnew|]. constructor; [|done]. split; [done|].
    apply model_kwargs_for.
Qed.

Lemma main_invokes (model : string) (output_dir prompt_dir : Path) (temperature : Q)
    (data : list problem) (s : state) :
  invokes temperature model s (fst (main model output_dir prompt_dir temperature data s)).
Proof.
  unfold main. unfold bind at 1, modify at 1.
  set (gcode := Build_Gencode model output_dir prompt_dir temperature).
  apply (invokes_trans _ _ _ (set_previous_llm_code [] s)); [by apply invokes_same|].
  apply (for_each_preserves (invokes temperature model));
    [apply invokes_refl|apply invokes_trans|].
  intros prob_data s1 _. unfold generate_problem. unfold bind at 1, modify at 1.
  apply (invokes_trans _ _ _ (add_stdout ("Generating " +:+ problem_id prob_data +:+ "...") s1));
    [by apply invokes_same|].
  apply (for_each_preserves (invokes temperature model));
    [apply invokes_refl|apply invokes_trans|].
  intros i s2 _. unfold generate_step. destruct (fixture_override _ _); [apply invokes_refl|].
  apply (generate_response_with_steps_invokes gcode).
Qed.

End Invocations.

(** C8.  Whatever the model identifier, each invocation of the model client
    by a call, and so each one of a run of [main], passes a configuration
    that holds the sampling temperature the instance was built with, and
    holds [max_tokens = 4096] exactly when "claude" occurs in the model
    identifier, no [max_tokens] otherwise.  A call that finds no response
    file, and whose resolution and prompt assembly return, makes one such
    invocation. *)
Theorem model_client_configuration `{Scicode} (self : Gencode) (prob_data : problem)
    (num_steps tot_steps : Z) (model prompt_template : string) (save : bool)
    (output_dir prompt_dir : Path) (temperature : Q) (data : list problem) (s : state) :
  (exists new,
     invocations (fst (generate_response_with_steps self prob_data num_steps tot_steps model
                         prompt_template save s)) = invocations s ++ new
     /\ (length new <= 1)%nat
     /\ Forall (fun i =>
          inv_model i = model
          /\ inv_kwargs i !! "temperature" = Some (VFloat (self_temperature self))
          /\ (inv_kwargs i !! "max_tokens" = Some (VInt 4096)
              <-> exists before rest, model = before +:+ "claude" +:+ rest)
          /\ (inv_kwargs i !! "max_tokens" = None
              <-> ~ exists before rest, model = before +:+ "claude" +:+ rest)) new)
  /\ (exists new,
        invocations (fst (main model output_dir prompt_dir temperature data s))
          = invocations s ++ new
        /\ Forall (fun i =>
             inv_model i = model
             /\ inv_kwargs i !! "temperature" = Some (VFloat temperature)
             /\ (inv_kwargs i !! "max_tokens" = Some (VInt 4096)
                 <-> exists before rest, model = before +:+ "claude" +:+ rest)
             /\ (inv_kwargs i !! "max_tokens" = None
                 <-> ~ exists before rest, model = before +:+ "claude" +:+ rest)) new)
  /\ (forall s1 prompt previous_code,
        files s !! response_file_path self model (problem_id prob_data) num_steps = None ->
        resolve_previous_steps self prob_data num_steps tot_steps model s = (s1, Ok tt) ->
        generate_prompt_with_steps prob_data num_steps prompt_template s1
          = (s1, Ok (prompt, previous_code)) ->
        exists kwargs,
          invocations (fst (generate_response_with_steps self prob_data num_steps tot_steps
                              model prompt_template save s))
            = invocations s ++ [Invocation model kwargs prompt]
          /\ kwargs !! "temperature" = Some (VFloat (self_temperature self))
          /\ kwargs !! "max_tokens"
               = if str_in "claude" model then Some (VInt 4096) else None).
Proof.
  assert (forall t kw, kwargs_for t model kw ->
            kw !! "temperature" = Some (VFloat t)
            /\ (kw !! "max_tokens" = Some (VInt 4096)
                <-> exists before rest, model = before +:+ "claude" +:+ rest)
            /\ (kw !! "max_tokens" = None
                <-> ~ exists before rest, model = before +:+ "claude" +:+ rest)) as Hkw.
  { intros t kw (Ht & Hm & _). split; [done|]. rewrite <- str_in_spec, Hm.
    destruct (str_in "claude" model); split; split; try done; by intros []. }
  split_and!.
  - destruct (generate_response_with_steps _ _ _ _ _ _ _ s) as [s' r] eqn:Hrun.
    destruct (generate_response_with_steps_invocations _ _ _ _ _ _ _ _ _ _ Hrun)
      as [Hsame|[prompt Hnew]]; simpl.
    + exists []. rewrite app_nil_r. split; [done|]. split; [simpl; lia|constructor].
    + eexists. split; [exact Hnew|]. split; [simpl; lia|].
      constructor; [|constructor]. split; [done|]. apply Hkw, model_kwargs_for.
  - destruct (main_invokes model output_dir prompt_dir temperature data s)
      as (new & Hnew & Hall).
    exists new. split; [done|]. eapply Forall_impl; [exact Hall|].
    intros i [Hmodel Hfor]. split; [done|]. by apply Hkw.
  - intros s1 prompt previous_code Hfile Hres Hgen. exists (model_kwargs self model).
    split; [by eapply generate_response_with_steps_absent|].
    destruct (model_kwargs_for self model) as (Ht & Hm & _). done.
Qed.

Lemma model_client_configuration_witness :
  exists kwargs,
    invocations (fst (generate_response_with_steps (H := Demo.scicode) Demo.gcode Demo.P1 1 2
                        "claude-3" "T" true Demo.empty_state))
      = [Invocation "claude-3" kwargs
           ("[|desc a" +:+ nl +:+ nl +:+ "f_a" +:+ nl +:+ nl +:+ "return a|import numpy as np]")]
    /\ kwargs !! "temperature" = Some (VFloat 0%Q)
    /\ kwargs !! "max_tokens" = Some (VInt 4096).
Proof.
  destruct (model_client_configuration (H := Demo.scicode) Demo.gcode Demo.P1 1 2
              "claude-3" "T" true ["out"] ["prompts"] 0%Q [] Demo.empty_state)
    as (_ & _ & Hone).
  apply (Hone (State [None; None] ∅ [] []) _ ("import numpy as np" +:+ nl +:+ nl));
    reflexivity.
Defined.

(** ** The fixture override table *)

Lemma fixture_override_spec (prob_id : string) (step : Z) :
  fixture_override prob_id step = true
  <-> (prob_id, step) ∈ [("13", 5); ("62", 0); ("76", 2)].
Proof.
  unfold fixture_override. rewrite !orb_true_iff, !andb_true_iff, !bool_decide_eq_true,
    !Z.eqb_eq, !elem_of_cons, elem_of_nil. split.
  - intros [[[-> ->]|[-> ->]]|[-> ->]]; auto.
  - intros [[= -> ->]|[[= -> ->]|[[= -> ->]|[]]]]; auto.
Qed.

(** A loop whose body does nothing on the items [skip] selects runs its
    body on the other items. *)
Lemma for_each_skip {A} (skip : A -> bool) (body body' : A -> M unit) (xs : list A) (s : state) :
  (forall x, body x = if skip x then ret tt else body' x) ->
  for_each xs body s = for_each (filter (fun x => skip x = false) xs) body' s.
Proof.
  intros Hbody. revert s. induction xs as [|x xs IH]; intros s; [done|].
  simpl. rewrite Hbody. rewrite filter_cons. destruct (skip x) eqn:Hskip.
  - rewrite decide_False by done. unfold bind, ret. apply IH.
  - rewrite decide_True by done. simpl. unfold bind.
    destruct (body' x s) as [s1 [[]|e]]; [apply IH|done].
Qed.

Lemma for_each_ext {A} (body body' : A -> M unit) (xs : list A) (s : state) :
  (forall x s0, body x s0 = body' x s0) ->
  for_each xs body s = for_each xs body' s.
Proof.
  intros Hext. revert s. induction xs as [|x xs IH]; intros s; [done|].
  simpl. unfold bind. rewrite Hext. destruct (body' x s) as [s1 [[]|e]]; [apply IH|done].
Qed.

(** The loop of lines 61-78 returns when every slot it visits either holds
    a body or can be read from its source file. *)
Lemma resolve_loop_returns `{Scicode} (self : Gencode) (prob_data : problem) (num_steps : Z)
    (model : string) (n : nat) (s : state) :
  (forall j : nat, (j < n)%nat ->
     (previous_llm_code s !! j = Some None
      /\ exists content st name,
           files s !! prev_file_path self model (problem_id prob_data) (Z.of_nat j)
             = Some content
           /\ sub_steps prob_data !! j = Some st
           /\ extract_function_name (function_header st) = Ok name)
     \/ (exists body, previous_llm_code s !! j = Some (Some body))) ->
  exists s', for_each (range (Z.of_nat n)) (resolve_prev_step self prob_data num_steps model) s
             = (s', Ok tt).
Proof.
  induction n as [|n IH]; intros Hall; [by eexists|].
  destruct IH as [s1 Hloop]; [intros j Hj; apply Hall; lia|].
  replace (Z.of_nat (S n)) with (Z.of_nat n + 1) by lia.
  rewrite range_succ, for_each_app, Hloop by lia. simpl. unfold bind, ret.
  pose proof (resolve_loop_frame self prob_data num_steps model (Z.of_nat n) s) as Hframe.
  rewrite Hloop, Nat2Z.id in Hframe. simpl in Hframe.
  destruct Hframe as [Hfiles _ _ _ Hkeep].
  rewrite resolve_prev_step_spec, Nat2Z.id, Hkeep, Hfiles by (lia || apply not_elem_of_nil).
  destruct (Hall n) as [(-> & content & st & name & -> & -> & ->)|[body ->]];
    [lia|by eexists..].
Qed.

(** C9, as amended.  The override table is the three pairs ("13",5),
    ("62",0), ("76",2) (0-based step index).  The source of an earlier step is
    the fixture file [eval/data/<problem_id>.<index+1>.txt] for a pair of the
    table (13.6.txt for ("13",5)) and the response file
    [<output_dir>/<model>/<problem_id>.<index+1>.py] for any other pair, and
    the two files differ.  Resolution returns exactly when every earlier slot
    that lines 56-60 left unresolved can be read from its source; each such
    slot then holds what [get_function_from_code] answers on the text of the
    source, and a slot that held a body keeps it, no file being read for it.
    The driver generates, in order, the steps that are not in the table, and
    does nothing for the others. *)
Theorem fixture_override_sources `{Scicode} (self : Gencode) (prob_data : problem)
    (num_steps tot_steps : Z) (model : string) (output_dir prompt_dir : Path)
    (temperature : Q) (data : list problem) (s : state) :
  let table : list (string * Z) := [("13", 5); ("62", 0); ("76", 2)] in
  let prob_id := problem_id prob_data in
  let fixture j := ["eval"; "data"; prob_id +:+ "." +:+ str (j + 1) +:+ ".txt"] in
  let response j :=
    self_output_dir self ++ [model] ++ [prob_id +:+ "." +:+ str (j + 1) +:+ ".py"] in
  let source j := if decide ((prob_id, j) ∈ table) then fixture j else response j in
  let cache0 := cache_after_reset num_steps tot_steps (previous_llm_code s) in
  (forall j, prev_file_path self model prob_id j = source j)
  /\ (forall j, fixture j <> response j)
  /\ prev_file_path self model "13" 5 = ["eval"; "data"; "13.6.txt"]
  /\ (forall s',
        resolve_previous_steps self prob_data num_steps tot_steps model s = (s', Ok tt) ->
        forall j : nat, Z.of_nat j < num_steps - 1 ->
          (cache0 !! j = Some None
           /\ exists content st name,
                files s !! source (Z.of_nat j) = Some content
                /\ sub_steps prob_data !! j = Some st
                /\ extract_function_name (function_header st) = Ok name
                /\ previous_llm_code s' !! j = Some (get_function_from_code content name))
          \/ (exists body,
                cache0 !! j = Some (Some body)
                /\ previous_llm_code s' !! j = Some (Some body)))
  /\ ((forall j : nat, Z.of_nat j < num_steps - 1 ->
         (cache0 !! j = Some None
          /\ exists content st name,
               files s !! source (Z.of_nat j) = Some content
               /\ sub_steps prob_data !! j = Some st
               /\ extract_function_name (function_header st) = Ok name)
         \/ (exists body, cache0 !! j = Some (Some body))) ->
      exists s',
        resolve_previous_steps self prob_data num_steps tot_steps model s = (s', Ok tt))
  /\ generate_problem self model prob_data s
     = for_each
         (filter (fun i => (prob_id, i) ∉ table)
            (range (Z.of_nat (length (sub_steps prob_data)))))
         (fun i => generate_response_with_steps self prob_data (i + 1)
                     (Z.of_nat (length (sub_steps prob_data))) model
                     DEFAULT_PROMPT_TEMPLATE true)
         (add_stdout ("Generating " +:+ prob_id +:+ "...") s)
  /\ main model output_dir prompt_dir temperature data s
     = for_each data
         (fun problem s0 =>
            for_each
              (filter (fun i => (problem_id problem, i) ∉ table)
                 (range (Z.of_nat (length (sub_steps problem)))))
              (fun i => generate_response_with_steps
                          (Build_Gencode model output_dir prompt_dir temperature) problem
                          (i + 1) (Z.of_nat (length (sub_steps problem))) model
                          DEFAULT_PROMPT_TEMPLATE true)
              (add_stdout ("Generating " +:+ problem_id problem +:+ "...") s0))
         (set_previous_llm_code [] s).
Proof.
  intros table prob_id fixture response source cache0.
  assert (forall id i, fixture_override id i = false <-> (id, i) ∉ table) as Hfalse.
  { intros id i. unfold table. rewrite <- fixture_override_spec.
    by destruct (fixture_override id i). }
  assert (forall j, prev_file_path self model prob_id j = source j) as Hsource.
  { intros j. unfold prev_file_path, source. destruct (decide _) as [Hin|Hout].
    - apply fixture_override_spec in Hin. by rewrite Hin.
    - apply Hfalse in Hout. by rewrite Hout. }
  assert (forall gcode problem s0,
            generate_problem gcode model problem s0
            = for_each
                (filter (fun i => (problem_id problem, i) ∉ table)
                   (range (Z.of_nat (length (sub_steps problem)))))
                (fun i => generate_response_with_steps gcode problem (i + 1)
                            (Z.of_nat (length (sub_steps problem))) model
                            DEFAULT_PROMPT_TEMPLATE true)
                (add_stdout ("Generating " +:+ problem_id problem +:+ "...") s0)) as Hdriver.
  { intros gcode problem s0. unfold generate_problem. unfold bind at 1, modify at 1.
    rewrite (for_each_skip (fixture_override (problem_id problem)) _
               (fun i => generate_response_with_steps gcode problem (i + 1)
                           (Z.of_nat (length (sub_steps problem))) model
                           DEFAULT_PROMPT_TEMPLATE true)) by done.
    f_equal. apply list_filter_iff. intros i. apply Hfalse. }
  split_and!.
  - done.
  - intros j. apply (fixture_path_not_response_path self model prob_id).
  - by vm_compute.
  - intros s' Hres j Hj. rewrite resolve_previous_steps_unfold in Hres. simpl in Hres.
    fold cache0 in Hres. destruct (Z.eqb_spec num_steps 1); [lia|].
    replace (num_steps - 1) with (Z.of_nat (Z.to_nat (num_steps - 1))) in Hres by lia.
    destruct (resolve_loop_slots _ _ _ _ _ _ _ Hres j) as (v & Hv & Hslot); [lia|].
    destruct Hslot as [(body & Hbody & ->)|(Hnone & content & st & name & Hfile & Hst
                                              & Hname & ->)]; simpl in *.
    + right. by exists body.
    + left. split; [done|]. exists content, st, name. by rewrite <- Hsource.
  - intros Hall. rewrite resolve_previous_steps_unfold. simpl. fold cache0.
    destruct (Z.eqb_spec num_steps 1); [by eexists|].
    destruct (Z.le_gt_cases (num_steps - 1) 0) as [Hle|Hgt];
      [rewrite range_nonpos by done; by eexists|].
    replace (num_steps - 1) with (Z.of_nat (Z.to_nat (num_steps - 1))) by lia.
    apply resolve_loop_returns. intros j Hj. simpl.
    destruct (Hall j) as [(Hnone & content & st & name & Hfile & Hst & Hname)|Hbody];
      [lia| |by right].
    left. split; [done|]. exists content, st, name. by rewrite Hsource.
  - apply Hdriver.
  - unfold main. unfold bind at 1, modify at 1. apply for_each_ext. intros problem s0.
    apply Hdriver.
Qed.

Lemma fixture_override_sources_witness :
  exists content,
    files Demo.with_fixture !! ["eval"; "data"; "62.1.txt"] = Some content
    /\ previous_llm_code
         (fst (resolve_previous_steps (H := Demo.scicode) Demo.gcode Demo.P62 2 2 "gpt-4o"
                 Demo.with_fixture)) !! 0%nat
       = Some (get_function_from_code (Scicode := Demo.scicode) content "f_c").
Proof.
  destruct (fixture_override_sources (H := Demo.scicode) Demo.gcode Demo.P62 2 2 "gpt-4o"
              ["out"] ["prompts"] 0%Q [] Demo.with_fixture) as (_ & _ & _ & Hread & _).
  destruct (Hread (fst (resolve_previous_steps (H := Demo.scicode) Demo.gcode Demo.P62 2 2
                          "gpt-4o" Demo.with_fixture)) eq_refl 0%nat)
    as [(_ & content & st & name & Hfile & Hst & Hname & Hslot)|(body & Hbody & _)].
  - lia.
  - injection Hst as <-. injection Hname as <-. exists content. split; [exact Hfile|exact Hslot].
  - discriminate Hbody.
Defined.

(** C9, as stated, fails where a slot already holds a body: the pair ("1",0)
    is not in the table and the response file of step 1 is on disk, yet
    resolution for step 2 keeps the body held in memory and does not take the
    one the file would give. *)
Lemma held_body_is_not_read_counterexample :
  let s :=
    State [Some "def f_a(): in memory"; None]
      {[ ["out"; "gpt-4o"; "1.1.py"] := "def f_a(): on disk" ]} [] [] in
  let resolved :=
    resolve_previous_steps (H := Demo.scicode) Demo.gcode Demo.P1 2 2 "gpt-4o" s in
  fixture_override "1" 0 = false
  /\ files s !! prev_file_path Demo.gcode "gpt-4o" "1" 0 = Some "def f_a(): on disk"
  /\ get_function_from_code (Scicode := Demo.scicode) "def f_a(): on disk" "f_a"
     = Some "def f_a(): on disk"
  /\ snd resolved = Ok tt
  /\ previous_llm_code (fst resolved) !! 0%nat = Some (Some "def f_a(): in memory").
Proof. by vm_compute. Qed.

(** ** Reuse of the cache from one problem to the next *)

(** A call for a later step that finds a cache of the expected length whose
    earlier slots hold bodies keeps them, whatever problem they came from. *)
Lemma resolve_previous_steps_keeps_cache `{Scicode} (self : Gencode) (prob_data : problem)
    (num_steps tot_steps : Z) (model : string) (s : state) :
  1 < num_steps ->
  Z.of_nat (length (previous_llm_code s)) = tot_steps ->
  (forall j : nat, Z.of_nat j < num_steps - 1 ->
     exists body, previous_llm_code s !! j = Some (Some body)) ->
  resolve_previous_steps self prob_data num_steps tot_steps model s = (s, Ok tt).
Proof.
  intros Hk Hlen Hbodies. rewrite resolve_previous_steps_unfold. simpl.
  destruct (Z.eqb_spec num_steps 1); [lia|].
  unfold cache_after_reset. destruct (Z.eqb_spec num_steps 1); [lia|].
  rewrite (proj2 (Z.eqb_eq _ _) Hlen). simpl.
  assert (set_previous_llm_code (previous_llm_code s) s = s) as -> by by destruct s.
  assert (forall steps, (forall i, i ∈ steps -> 0 <= i < num_steps - 1) ->
            for_each steps (resolve_prev_step self prob_data num_steps model) s = (s, Ok tt))
    as Hloop.
  { induction steps as [|i steps IH]; intros Hsteps; [done|]. simpl. unfold bind.
    rewrite resolve_prev_step_spec by (apply Hsteps; by left).
    destruct (Hbodies (Z.to_nat i)) as [body ->].
    { pose proof (Hsteps i (list_elem_of_here _ _)). lia. }
    apply IH. intros i' Hi'. apply Hsteps. by right. }
  apply Hloop. intros i Hi. by apply elem_of_range in Hi.
Qed.

(** C3 fails on the code.  [main] skips step 1 of problem "62", so the call
    for its step 2 is the first one for that problem; the cache left by a
    previous problem with as many steps passes the length test of line 59
    and is kept.  Run on problem "62" alone, the prompt of its step 2 carries
    the body of the fixture file; run after problem "1", it carries the body
    the model gave for step 1 of problem "1" ("code0"), which is also
    written into the response file of problem "62". *)
Theorem stale_cache_reaches_next_problem :
  let alone := main (H := Demo.scicode) "gpt-4o" ["out"] ["prompts"] 0%Q
                 [Demo.P62] Demo.with_fixture in
  let out := main (H := Demo.scicode) "gpt-4o" ["out"] ["prompts"] 0%Q
               [Demo.P1; Demo.P62] Demo.with_fixture in
  snd alone = Ok tt
  /\ inv_prompt <$> invocations (fst alone)
     = [ "[def f_c(): return 0|desc d" +:+ nl +:+ nl +:+ "f_d" +:+ nl +:+ nl
           +:+ "return d|import scipy]" ]
  /\ snd out = Ok tt
  /\ inv_prompt <$> invocations (fst out)
     = [ "[|desc a" +:+ nl +:+ nl +:+ "f_a" +:+ nl +:+ nl +:+ "return a|import numpy as np]";
         "[code0|desc b" +:+ nl +:+ nl +:+ "f_b" +:+ nl +:+ nl +:+ "return b|import numpy as np]";
         "[code0|desc d" +:+ nl +:+ nl +:+ "f_d" +:+ nl +:+ nl +:+ "return d|import scipy]" ]
  /\ files (fst out) !! ["out"; "gpt-4o"; "1.1.py"]
     = Some ("import numpy as np" +:+ nl +:+ nl +:+ nl +:+ "code0")
  /\ files (fst out) !! ["out"; "gpt-4o"; "62.2.py"]
     = Some ("import scipy" +:+ nl +:+ "code0" +:+ nl +:+ nl +:+ "code2").
Proof. by vm_compute. Qed.


(** * Further properties of the code *)

(** ** The outcomes of a call *)

Section Outcomes.
Context `{Scicode}.
Variables (self : Gencode) (prob_data : problem) (num_steps tot_steps : Z).
Variables (model prompt_template : string) (save : bool).

(** A call is resolution, then prompt assembly, then lines 80-97. *)
Lemma generate_response_with_steps_unfold (s : state) :
  generate_response_with_steps self prob_data num_steps tot_steps model prompt_template save s
    = match resolve_previous_steps self prob_data num_steps tot_steps model s with
      | (s1, Raise e) => (s1, Raise e)
      | (s1, Ok _) =>
          match generate_prompt_with_steps prob_data num_steps prompt_template s1 with
          | (_, Raise e) => (s1, Raise e)
          | (_, Ok (prompt, previous_code)) =>
              generate_if_absent self prob_data num_steps model prompt previous_code
                (after_save_prompt self prob_data num_steps prompt save s1)
          end
      end.
Proof.
  unfold generate_response_with_steps. unfold bind at 1.
  destruct (resolve_previous_steps _ _ _ _ _ s) as [s1 [[]|e]]; [|done].
  unfold bind at 1.
  pose proof (generate_prompt_with_steps_state prob_data num_steps prompt_template s1) as Hst.
  destruct (generate_prompt_with_steps _ _ _ s1) as [s2 [[prompt pc]|e]];
    simpl in Hst; subst s2; [|done].
  unfold after_save_prompt. by destruct save.
Qed.

(** Lines 93-97, outcome by outcome. *)
Lemma generate_if_absent_spec (prompt previous_code : string) (s : state) :
  generate_if_absent self prob_data num_steps model prompt previous_code s
    = match files s !! response_file_path self model (problem_id prob_data) num_steps with
      | Some _ => (s, Ok tt)
      | None =>
          let kwargs := model_kwargs self model in
          let s1 := add_invocation (Invocation model kwargs prompt) s in
          match get_model_function model kwargs (length (invocations s)) prompt with
          | Raise e => (s1, Raise e)
          | Ok response =>
              match setitem (previous_llm_code s) (num_steps - 1)
                      (Some (extract_python_script response)) with
              | Raise e => (s1, Raise e)
              | Ok cache =>
                  (set_files
                     (<[response_file_path self model (problem_id prob_data) num_steps
                        := previous_code +:+ nl +:+ extract_python_script response]> (files s))
                     (set_previous_llm_code cache s1), Ok tt)
              end
          end
      end.
Proof.
  unfold generate_if_absent, exists_, save_response_with_steps, write_text. run.
  destruct (files s !! _); simpl; [done|].
  destruct (get_model_function _ _ _ _); simpl; [|done].
  by destruct (setitem _ _ _).
Qed.

Lemma after_save_prompt_response (prompt : string) (s1 : state) :
  files (after_save_prompt self prob_data num_steps prompt save s1)
    !! response_file_path self model (problem_id prob_data) num_steps
  = files s1 !! response_file_path self model (problem_id prob_data) num_steps.
Proof.
  unfold after_save_prompt. destruct save; simpl; [|done].
  apply lookup_insert_ne, prompt_path_not_response_path.
Qed.

End Outcomes.

Section OutcomeFacts.
Context `{Scicode}.
Variables (self : Gencode) (prob_data : problem) (num_steps tot_steps : Z).
Variables (model prompt_template : string) (save : bool).

(** What the state after resolution and lines 80-81 shares with the state
    the call started from. *)
Lemma after_save_prompt_facts (s s1 : state) (r : result unit) (prompt : string) :
  resolve_previous_steps self prob_data num_steps tot_steps model s = (s1, r) ->
  let s2 := after_save_prompt self prob_data num_steps prompt save s1 in
  previous_llm_code s2 = previous_llm_code s1
  /\ files s2 = (if save
                 then <[prompt_file_path self prob_data num_steps := prompt]> (files s)
                 else files s)
  /\ invocations s2 = invocations s
  /\ stdout s2 = stdout s.
Proof.
  intros Hres.
  pose proof (resolve_previous_steps_frame self prob_data num_steps tot_steps model s)
    as [_ Hinv Hout _ _].
  pose proof (resolve_previous_steps_files self prob_data num_steps tot_steps model s) as Hfs.
  rewrite Hres in Hinv, Hout, Hfs. simpl in *.
  unfold after_save_prompt. destruct save; simpl; by rewrite ?Hfs.
Qed.

End OutcomeFacts.

(** ** Generation of a step whose response file is absent *)

(** X1.  A call that finds no response file, whose resolution and prompt
    assembly return and whose model client answers, returns; it stores the
    script extracted from the answer in slot [num_steps-1], writes the
    response file as the previous code, a newline and that script, has
    written the prompt file when [save] is set, and has invoked the model
    once. *)
Theorem generation_writes_response `{Scicode} (self : Gencode) (prob_data : problem)
    (num_steps tot_steps : Z) (model prompt_template : string) (save : bool)
    (s s1 : state) (prompt previous_code response : string) :
  files s !! response_file_path self model (problem_id prob_data) num_steps = None ->
  resolve_previous_steps self prob_data num_steps tot_steps model s = (s1, Ok tt) ->
  generate_prompt_with_steps prob_data num_steps prompt_template s1
    = (s1, Ok (prompt, previous_code)) ->
  get_model_function model (model_kwargs self model) (length (invocations s)) prompt
    = Ok response ->
  1 <= num_steps <= Z.of_nat (length (previous_llm_code s1)) ->
  let out := generate_response_with_steps self prob_data num_steps tot_steps model
               prompt_template save s in
  let code := extract_python_script response in
  snd out = Ok tt
  /\ previous_llm_code (fst out)
     = <[Z.to_nat (num_steps - 1) := Some code]> (previous_llm_code s1)
  /\ files (fst out)
     = <[response_file_path self model (problem_id prob_data) num_steps
         := previous_code +:+ nl +:+ code]>
         (if save
          then <[prompt_file_path self prob_data num_steps := prompt]> (files s)
          else files s)
  /\ invocations (fst out)
     = invocations s ++ [Invocation model (model_kwargs self model) prompt]
  /\ stdout (fst out) = stdout s.
Proof.
  intros Hfile Hres Hgen Hmodel Hk out code. subst out.
  rewrite generate_response_with_steps_unfold, Hres, Hgen, generate_if_absent_spec.
  rewrite after_save_prompt_response.
  pose proof (resolve_previous_steps_files self prob_data num_steps tot_steps model s) as Hfs.
  rewrite Hres in Hfs. simpl in Hfs. rewrite Hfs, Hfile. simpl.
  destruct (after_save_prompt_facts self prob_data num_steps tot_steps model save
              s s1 (Ok tt) prompt Hres) as (Hcache & Hfiles & Hinv & Hout).
  rewrite Hinv, Hmodel, Hcache, setitem_nonneg by lia.
  destruct (Z.ltb_spec (num_steps - 1) (Z.of_nat (length (previous_llm_code s1)))); [|lia].
  simpl. by rewrite Hfiles, Hinv, Hout.
Qed.

Lemma generation_writes_response_witness :
  files (fst (generate_response_with_steps (H := Demo.scicode) Demo.gcode Demo.P1 1 2
                "gpt-4o" "T" true Demo.empty_state))
  = <[ ["out"; "gpt-4o"; "1.1.py"] := "import numpy as np" +:+ nl +:+ nl +:+ nl +:+ "code0" ]>
      (<[ ["prompts"; "gpt-4o"; "1.1.txt"]
          := "[|desc a" +:+ nl +:+ nl +:+ "f_a" +:+ nl +:+ nl
               +:+ "return a|import numpy as np]" ]> ∅).
Proof.
  destruct (generation_writes_response (H := Demo.scicode) Demo.gcode Demo.P1 1 2
              "gpt-4o" "T" true Demo.empty_state (State [None; None] ∅ [] [])
              ("[|desc a" +:+ nl +:+ nl +:+ "f_a" +:+ nl +:+ nl
                 +:+ "return a|import numpy as np]")
              ("import numpy as np" +:+ nl +:+ nl) "code0") as (_ & _ & Hfiles & _).
  - reflexivity.
  - reflexivity.
  - reflexivity.
  - reflexivity.
  - simpl. lia.
  - exact Hfiles.
Defined.

(** X2.  When the model client raises, the call raises the same exception:
    the invocation is on record and the prompt file is written when [save]
    is set, but no response file is written and the cache is as resolution
    left it, so a later run generates the step again. *)
Theorem model_failure_leaves_no_response `{Scicode} (self : Gencode) (prob_data : problem)
    (num_steps tot_steps : Z) (model prompt_template : string) (save : bool)
    (s s1 : state) (prompt previous_code : string) (e : exn) :
  files s !! response_file_path self model (problem_id prob_data) num_steps = None ->
  resolve_previous_steps self prob_data num_steps tot_steps model s = (s1, Ok tt) ->
  generate_prompt_with_steps prob_data num_steps prompt_template s1
    = (s1, Ok (prompt, previous_code)) ->
  get_model_function model (model_kwargs self model) (length (invocations s)) prompt
    = Raise e ->
  let out := generate_response_with_steps self prob_data num_steps tot_steps model
               prompt_template save s in
  snd out = Raise e
  /\ files (fst out) !! response_file_path self model (problem_id prob_data) num_steps = None
  /\ files (fst out)
     = (if save
        then <[prompt_file_path self prob_data num_steps := prompt]> (files s)
        else files s)
  /\ previous_llm_code (fst out) = previous_llm_code s1
  /\ invocations (fst out)
     = invocations s ++ [Invocation model (model_kwargs self model) prompt].
Proof.
  intros Hfile Hres Hgen Hmodel out. subst out.
  rewrite generate_response_with_steps_unfold, Hres, Hgen, generate_if_absent_spec.
  pose proof (after_save_prompt_response self prob_data num_steps model save prompt s1)
    as Hresp.
  pose proof (resolve_previous_steps_files self prob_data num_steps tot_steps model s) as Hfs.
  rewrite Hres in Hfs. simpl in Hfs. rewrite Hfs, Hfile in Hresp. rewrite Hresp. simpl.
  destruct (after_save_prompt_facts self prob_data num_steps tot_steps model save
              s s1 (Ok tt) prompt Hres) as (Hcache & Hfiles & Hinv & Hout).
  rewrite Hinv, Hmodel. simpl. by rewrite Hresp, Hfiles, Hcache, Hinv.
Qed.

(** X3.  When the cache has no slot for the step (the total step count
    passed is smaller than the step), the call still invokes the model and
    then raises [IndexError] at line 96: the answer is lost, no response file
    is written. *)
Theorem short_cache_loses_response `{Scicode} (self : Gencode) (prob_data : problem)
    (num_steps tot_steps : Z) (model prompt_template : string) (save : bool)
    (s s1 : state) (prompt previous_code response : string) :
  files s !! response_file_path self model (problem_id prob_data) num_steps = None ->
  resolve_previous_steps self prob_data num_steps tot_steps model s = (s1, Ok tt) ->
  generate_prompt_with_steps prob_data num_steps prompt_template s1
    = (s1, Ok (prompt, previous_code)) ->
  get_model_function model (model_kwargs self model) (length (invocations s)) prompt
    = Ok response ->
  1 <= num_steps ->
  Z.of_nat (length (previous_llm_code s1)) < num_steps ->
  let out := generate_response_with_steps self prob_data num_steps tot_steps model
               prompt_template save s in
  snd out = Raise IndexError
  /\ files (fst out) !! response_file_path self model (problem_id prob_data) num_steps = None
  /\ previous_llm_code (fst out) = previous_llm_code s1
  /\ invocations (fst out)
     = invocations s ++ [Invocation model (model_kwargs self model) prompt].
Proof.
  intros Hfile Hres Hgen Hmodel Hk Hshort out. subst out.
  rewrite generate_response_with_steps_unfold, Hres, Hgen, generate_if_absent_spec.
  pose proof (after_save_prompt_response self prob_data num_steps model save prompt s1)
    as Hresp.
  pose proof (resolve_previous_steps_files self prob_data num_steps tot_steps model s) as Hfs.
  rewrite Hres in Hfs. simpl in Hfs. rewrite Hfs, Hfile in Hresp. rewrite Hresp. simpl.
  destruct (after_save_prompt_facts self prob_data num_steps tot_steps model save
              s s1 (Ok tt) prompt Hres) as (Hcache & Hfiles & Hinv & Hout).
  rewrite Hinv, Hmodel, Hcache, setitem_nonneg by lia.
  destruct (Z.ltb_spec (num_steps - 1) (Z.of_nat (length (previous_llm_code s1)))); [lia|].
  simpl. by rewrite Hresp, Hcache, Hinv.
Qed.

Lemma model_failure_leaves_no_response_witness :
  snd (generate_response_with_steps (H := Faulty.scicode) Demo.gcode Demo.P1 1 2
         "gpt-4o" "T" true Demo.empty_state) = Raise (ClientError "connection refused")
  /\ files (fst (generate_response_with_steps (H := Faulty.scicode) Demo.gcode Demo.P1 1 2
                   "gpt-4o" "T" true Demo.empty_state)) !! ["out"; "gpt-4o"; "1.1.py"] = None.
Proof.
  destruct (model_failure_leaves_no_response (H := Faulty.scicode) Demo.gcode Demo.P1 1 2
              "gpt-4o" "T" true Demo.empty_state (State [None; None] ∅ [] [])
              ("[|desc a" +:+ nl +:+ nl +:+ "f_a" +:+ nl +:+ nl
                 +:+ "return a|import numpy as np]")
              ("import numpy as np" +:+ nl +:+ nl) (ClientError "connection refused"))
    as (Hraise & Hfile & _).
  - reflexivity.
  - reflexivity.
  - reflexivity.
  - reflexivity.
  - split; [exact Hraise|exact Hfile].
Defined.

Lemma short_cache_loses_response_witness :
  snd (generate_response_with_steps (H := Demo.scicode) Demo.gcode Demo.P1 1 0
         "gpt-4o" "T" true Demo.empty_state) = Raise IndexError
  /\ files (fst (generate_response_with_steps (H := Demo.scicode) Demo.gcode Demo.P1 1 0
                   "gpt-4o" "T" true Demo.empty_state)) !! ["out"; "gpt-4o"; "1.1.py"] = None.
Proof.
  destruct (short_cache_loses_response (H := Demo.scicode) Demo.gcode Demo.P1 1 0
              "gpt-4o" "T" true Demo.empty_state (State [] ∅ [] [])
              ("[|desc a" +:+ nl +:+ nl +:+ "f_a" +:+ nl +:+ nl
                 +:+ "return a|import numpy as np]")
              ("import numpy as np" +:+ nl +:+ nl) "code0")
    as (Hraise & Hfile & _).
  - reflexivity.
  - reflexivity.
  - reflexivity.
  - reflexivity.
  - lia.
  - simpl. lia.
  - split; [exact Hraise|exact Hfile].
Defined.

(** ** Errors of prompt assembly *)

Lemma all_str_None (l : list (option string)) : None ∈ l -> all_str l = None.
Proof.
  induction l as [|[x|] l IH]; intros Hin; simpl; [by apply elem_of_nil in Hin| |done].
  apply elem_of_cons in Hin as [|Hin]; [done|]. by rewrite IH.
Qed.

Lemma drop_last_keeps_None (slots : list (option string)) :
  None ∈ slots ->
  None ∈ drop_last (flat_map (fun b => [b] ++ [Some "------"]) slots).
Proof.
  unfold drop_last. induction slots as [|x [|y slots] IH]; intros Hin.
  - by apply elem_of_nil in Hin.
  - apply list_elem_of_singleton in Hin as <-. simpl. by left.
  - change (None ∈ x :: Some "------" ::
              removelast (flat_map (fun b => [b] ++ [Some "------"]) (y :: slots))).
    apply elem_of_cons in Hin as [<-|Hin]; [by left|]. right. right. by apply IH.
Qed.

Lemma getitem_out_of_range {A} (l : list A) (i : Z) :
  Z.of_nat (length l) <= i \/ i < - Z.of_nat (length l) -> getitem l i = Raise IndexError.
Proof.
  intros Hi. unfold getitem, py_index.
  destruct (Z.leb_spec 0 i).
  - destruct (Z.ltb_spec i (Z.of_nat (length l))); [lia|done].
  - destruct (Z.leb_spec 0 (Z.of_nat (length l) + i)); [lia|done].
Qed.

Lemma getitem_raises {A} (l : list A) (i : Z) (e : exn) :
  getitem l i = Raise e -> e = IndexError.
Proof.
  unfold getitem. destruct (py_index _ _); [|by intros [= <-]].
  destruct (l !! _); [done|by intros [= <-]].
Qed.

Lemma collect_previous_raises (steps : list Z) (ol pc : list (option string))
    (s s' : state) (e : exn) :
  collect_previous steps ol pc s = (s', Raise e) -> e = IndexError.
Proof.
  revert ol pc. induction steps as [|i steps IH]; intros ol pc; simpl; [done|]. run.
  destruct (getitem (previous_llm_code s) i) eqn:Hget; simpl; [apply IH|].
  intros [= _ <-]. by eapply getitem_raises.
Qed.

(** X4.  When resolution returns with an earlier slot still unresolved (the
    source file defined no function of the expected name), prompt assembly
    raises [TypeError] at the [join] of line 118: the call raises it, having
    written no file and invoked no model. *)
Theorem unresolved_slot_raises_type_error `{Scicode} (self : Gencode) (prob_data : problem)
    (num_steps tot_steps : Z) (model prompt_template : string) (save : bool)
    (s s1 : state) (j : nat) (st : sub_step) :
  resolve_previous_steps self prob_data num_steps tot_steps model s = (s1, Ok tt) ->
  Z.of_nat j < num_steps - 1 ->
  previous_llm_code s1 !! j = Some None ->
  sub_steps prob_data !! Z.to_nat (num_steps - 1) = Some st ->
  generate_response_with_steps self prob_data num_steps tot_steps model prompt_template save s
    = (s1, Raise TypeError)
  /\ files s1 = files s
  /\ invocations s1 = invocations s.
Proof.
  intros Hres Hj Hslot Hst.
  assert (Z.to_nat (num_steps - 1) <= length (previous_llm_code s1))%nat as Hlen.
  { rewrite resolve_previous_steps_unfold in Hres. simpl in Hres.
    destruct (Z.eqb_spec num_steps 1); [lia|].
    replace (num_steps - 1) with (Z.of_nat (Z.to_nat (num_steps - 1))) in Hres by lia.
    destruct (resolve_loop_slots _ _ _ _ _ _ _ Hres (Z.to_nat (num_steps - 1) - 1)%nat)
      as (v & Hv & _); [lia|].
    apply lookup_lt_Some in Hv. lia. }
  assert (generate_prompt_with_steps prob_data num_steps prompt_template s1
          = (s1, Raise TypeError)) as Hgen.
  { unfold generate_prompt_with_steps. unfold bind at 1.
    rewrite (process_problem_steps_slots _ _ _ st) by (done || lia).
    unfold join at 1. rewrite all_str_None; [done|].
    apply drop_last_keeps_None. apply list_elem_of_lookup. exists j.
    rewrite lookup_take_lt by lia. done. }
  pose proof (resolve_previous_steps_frame self prob_data num_steps tot_steps model s)
    as [_ Hinv _ _ _].
  pose proof (resolve_previous_steps_files self prob_data num_steps tot_steps model s) as Hfs.
  rewrite Hres in Hinv, Hfs.
  split; [|done]. by rewrite generate_response_with_steps_unfold, Hres, Hgen.
Qed.

Lemma unresolved_slot_raises_type_error_witness :
  generate_response_with_steps (H := Demo.scicode) Demo.gcode Demo.P1 2 2 "gpt-4o" "T" true
    Demo.other_function
  = (State [None; None] (files Demo.other_function) [] [], Raise TypeError).
Proof.
  destruct (unresolved_slot_raises_type_error (H := Demo.scicode) Demo.gcode Demo.P1 2 2
              "gpt-4o" "T" true Demo.other_function
              (State [None; None] (files Demo.other_function) [] []) 0 (Demo.step "b"))
    as (Hcall & _).
  - reflexivity.
  - lia.
  - reflexivity.
  - reflexivity.
  - exact Hcall.
Defined.

(** X5.  A step number that addresses no sub-step of the problem (above
    their number, or below its opposite; any number when the problem has no
    sub-step) makes prompt assembly raise [IndexError], and a call for it
    raises without writing a file or invoking the model. *)
Theorem step_out_of_range_raises `{Scicode} (self : Gencode) (prob_data : problem)
    (num_steps tot_steps : Z) (model prompt_template : string) (save : bool) (s : state) :
  Z.of_nat (length (sub_steps prob_data)) < num_steps
  \/ num_steps <= - Z.of_nat (length (sub_steps prob_data)) ->
  generate_prompt_with_steps prob_data num_steps prompt_template s = (s, Raise IndexError)
  /\ let out := generate_response_with_steps self prob_data num_steps tot_steps model
                  prompt_template save s in
     (exists e, snd out = Raise e)
     /\ files (fst out) = files s
     /\ invocations (fst out) = invocations s.
Proof.
  intros Hrange.
  assert (forall s0, generate_prompt_with_steps prob_data num_steps prompt_template s0
                     = (s0, Raise IndexError)) as Hgen.
  { intros s0. unfold generate_prompt_with_steps, process_problem_steps. unfold bind at 1 2.
    pose proof (collect_previous_state (range (num_steps - 1)) [] [] s0) as Hst.
    destruct (collect_previous _ _ _ s0) as [s1 [[ol pc]|e]] eqn:Hcollect;
      simpl in Hst; subst s1.
    - run. rewrite getitem_out_of_range by lia. done.
    - by apply collect_previous_raises in Hcollect as ->. }
  split; [apply Hgen|]. simpl.
  rewrite generate_response_with_steps_unfold.
  pose proof (resolve_previous_steps_frame self prob_data num_steps tot_steps model s)
    as [_ Hinv _ _ _].
  pose proof (resolve_previous_steps_files self prob_data num_steps tot_steps model s) as Hfs.
  destruct (resolve_previous_steps _ _ _ _ _ s) as [s1 [[]|e]]; simpl in *.
  - rewrite Hgen. simpl. split; [by eexists|done].
  - split; [by eexists|done].
Qed.

Lemma step_out_of_range_raises_witness :
  generate_prompt_with_steps (H := Demo.scicode) Demo.P1 3 "T" Demo.empty_state
    = (Demo.empty_state, Raise IndexError).
Proof.
  apply (step_out_of_range_raises (H := Demo.scicode) Demo.gcode Demo.P1 3 2 "gpt-4o" "T"
           true Demo.empty_state).
  left. simpl. lia.
Defined.

(** X6.  A step number that is zero or negative is read as Python reads
    a negative index: with [n] sub-steps and [-n < num_steps <= 0], prompt
    assembly returns the next-step section of sub-step [n + num_steps]
    (counting from 1; step 0 is the last sub-step), with empty prior-steps
    text and empty previous code, whatever the cache holds. *)
Theorem nonpositive_step_wraps_around (prob_data : problem) (num_steps : Z) (s : state)
    (st : sub_step) :
  num_steps <= 0 ->
  0 <= Z.of_nat (length (sub_steps prob_data)) + (num_steps - 1) ->
  sub_steps prob_data
    !! Z.to_nat (Z.of_nat (length (sub_steps prob_data)) + (num_steps - 1)) = Some st ->
  process_problem_steps prob_data num_steps s
    = (s, Ok ("", step_description_prompt st +:+ (nl +:+ nl)
                    +:+ (function_header st +:+ nl +:+ nl +:+ return_line st), "")).
Proof.
  intros Hk Hwrap Hst. unfold process_problem_steps, process_problem_code.
  rewrite range_nonpos by lia. run. unfold getitem, py_index.
  destruct (Z.leb_spec 0 (num_steps - 1)); [lia|].
  destruct (Z.leb_spec 0 (Z.of_nat (length (sub_steps prob_data)) + (num_steps - 1))); [|lia].
  by rewrite Hst.
Qed.

Lemma nonpositive_step_wraps_around_witness :
  process_problem_steps Demo.P1 0 Demo.empty_state
    = (Demo.empty_state,
       Ok ("", "desc b" +:+ (nl +:+ nl) +:+ ("f_b" +:+ nl +:+ nl +:+ "return b"), "")).
Proof.
  apply (nonpositive_step_wraps_around Demo.P1 0 Demo.empty_state (Demo.step "b")).
  - lia.
  - simpl. lia.
  - reflexivity.
Defined.

(** ** What a call changes *)

Section Effects.
Context `{Scicode}.
Variables (self : Gencode) (prob_data : problem) (num_steps tot_steps : Z).
Variables (model prompt_template : string) (save : bool).

Lemma generate_if_absent_effects (prompt previous_code : string) (s : state) :
  let s' := fst (generate_if_absent self prob_data num_steps model prompt previous_code s) in
  (forall p, p <> response_file_path self model (problem_id prob_data) num_steps ->
     files s' !! p = files s !! p)
  /\ (forall p, is_Some (files s !! p) -> is_Some (files s' !! p))
  /\ stdout s' = stdout s
  /\ length (previous_llm_code s') = length (previous_llm_code s)
  /\ (forall j : nat, 1 <= num_steps -> Z.of_nat j <> num_steps - 1 ->
        previous_llm_code s' !! j = previous_llm_code s !! j).
Proof.
  rewrite generate_if_absent_spec.
  destruct (files s !! response_file_path _ _ _ _) eqn:Hfile; simpl; [done|].
  destruct (get_model_function _ _ _ _); simpl; [|done].
  destruct (setitem _ _ _) as [cache|e] eqn:Hset; simpl; [|done]. split_and!; try done.
  - intros p Hp. by rewrite lookup_insert_ne.
  - intros p Hsome. destruct (decide (response_file_path self model (problem_id prob_data)
                                        num_steps = p)) as [<-|Hne].
    + rewrite lookup_insert_eq. by eexists.
    + by rewrite lookup_insert_ne.
  - by eapply setitem_length.
  - intros j Hk Hj. rewrite setitem_nonneg in Hset by lia.
    destruct (_ <? _); [|done]. injection Hset as <-. apply list_lookup_insert_ne. lia.
Qed.

Lemma after_save_prompt_effects (prompt : string) (s1 : state) :
  let s2 := after_save_prompt self prob_data num_steps prompt save s1 in
  (forall p, (save = true -> p <> prompt_file_path self prob_data num_steps) ->
     files s2 !! p = files s1 !! p)
  /\ (forall p, is_Some (files s1 !! p) -> is_Some (files s2 !! p))
  /\ stdout s2 = stdout s1
  /\ previous_llm_code s2 = previous_llm_code s1.
Proof.
  unfold after_save_prompt. destruct save; simpl; [|done]. split_and!; try done.
  - intros p Hp. rewrite lookup_insert_ne; [done|]. intros <-. by apply Hp.
  - intros p Hsome. destruct (decide (prompt_file_path self prob_data num_steps = p))
      as [<-|Hne].
    + rewrite lookup_insert_eq. by eexists.
    + by rewrite lookup_insert_ne.
Qed.

(** The files, the output and the cache of a call, whatever its outcome. *)
Lemma generate_response_with_steps_effects (s : state) :
  let s' := fst (generate_response_with_steps self prob_data num_steps tot_steps model
                   prompt_template save s) in
  (forall p, p <> response_file_path self model (problem_id prob_data) num_steps ->
     (save = true -> p <> prompt_file_path self prob_data num_steps) ->
     files s' !! p = files s !! p)
  /\ (forall p, is_Some (files s !! p) -> is_Some (files s' !! p))
  /\ stdout s' = stdout s
  /\ (0 <= tot_steps -> Z.of_nat (length (previous_llm_code s')) = tot_steps).
Proof.
  rewrite generate_response_with_steps_unfold.
  pose proof (resolve_previous_steps_frame self prob_data num_steps tot_steps model s)
    as [_ _ Hout Hlen _].
  pose proof (resolve_previous_steps_files self prob_data num_steps tot_steps model s) as Hfs.
  assert (0 <= tot_steps ->
          Z.of_nat (length (previous_llm_code
            (fst (resolve_previous_steps self prob_data num_steps tot_steps model s))))
          = tot_steps) as Hlen'.
  { intros Htot. rewrite Hlen. simpl. by apply length_cache_after_reset. }
  destruct (resolve_previous_steps _ _ _ _ _ s) as [s1 [[]|e]]; simpl in *; [|by rewrite Hfs].
  destruct (generate_prompt_with_steps _ _ _ s1) as [s2 [[prompt pc]|e]]; simpl;
    [|by rewrite Hfs].
  destruct (generate_if_absent_effects prompt pc
              (after_save_prompt self prob_data num_steps prompt save s1))
    as (Hother & Hkeep & Hstdout & Hlength & _).
  destruct (after_save_prompt_effects prompt s1) as (Hother' & Hkeep' & Hstdout' & Hcache').
  simpl in *. split_and!.
  - intros p Hresp Hprompt. by rewrite Hother, Hother', Hfs.
  - intros p Hsome. apply Hkeep, Hkeep'. by rewrite Hfs.
  - by rewrite Hstdout, Hstdout'.
  - intros Htot. rewrite Hlength, Hcache'. by apply Hlen'.
Qed.

End Effects.

(** X7.  Whatever its outcome, a call changes no file but the response file
    of its step and, when [save] is set, the prompt file of its step; it
    removes no file. *)
Theorem call_writes_its_two_files `{Scicode} (self : Gencode) (prob_data : problem)
    (num_steps tot_steps : Z) (model prompt_template : string) (save : bool) (s : state) :
  let s' := fst (generate_response_with_steps self prob_data num_steps tot_steps model
                   prompt_template save s) in
  (forall p,
     p <> response_file_path self model (problem_id prob_data) num_steps ->
     (save = true -> p <> prompt_file_path self prob_data num_steps) ->
     files s' !! p = files s !! p)
  /\ (forall p, is_Some (files s !! p) -> is_Some (files s' !! p)).
Proof.
  destruct (generate_response_with_steps_effects self prob_data num_steps tot_steps model
              prompt_template save s) as (Hother & Hkeep & _). by split.
Qed.

Lemma call_writes_its_two_files_witness :
  files (fst (generate_response_with_steps (H := Demo.scicode) Demo.gcode Demo.P1 1 2
                "gpt-4o" "T" false Demo.with_fixture)) !! ["eval"; "data"; "62.1.txt"]
  = Some "def f_c(): return 0".
Proof.
  destruct (call_writes_its_two_files (H := Demo.scicode) Demo.gcode Demo.P1 1 2
              "gpt-4o" "T" false Demo.with_fixture) as [Hother _].
  rewrite Hother; [reflexivity|discriminate|discriminate].
Defined.

(** X8.  Whatever its outcome, a call with a total step count [tot_steps >= 0]
    leaves a cache of exactly [tot_steps] slots. *)
Theorem cache_has_one_slot_per_step `{Scicode} (self : Gencode) (prob_data : problem)
    (num_steps tot_steps : Z) (model prompt_template : string) (save : bool) (s : state) :
  0 <= tot_steps ->
  Z.of_nat (length (previous_llm_code
                      (fst (generate_response_with_steps self prob_data num_steps tot_steps
                              model prompt_template save s)))) = tot_steps.
Proof.
  intros Htot.
  destruct (generate_response_with_steps_effects self prob_data num_steps tot_steps model
              prompt_template save s) as (_ & _ & _ & Hlen). by apply Hlen.
Qed.

Lemma cache_has_one_slot_per_step_witness :
  Z.of_nat (length (previous_llm_code
                      (fst (generate_response_with_steps (H := Demo.scicode) Demo.gcode
                              Demo.P1 2 2 "gpt-4o" "T" true
                              (State [Some "a"; Some "b"; Some "c"] ∅ [] [])))))
  = 2.
Proof.
  apply (cache_has_one_slot_per_step (H := Demo.scicode) Demo.gcode Demo.P1 2 2 "gpt-4o" "T"
           true (State [Some "a"; Some "b"; Some "c"] ∅ [] [])).
  lia.
Defined.

(** ** What a run of [main] changes *)

Lemma writes_artifacts_only_refl (self : Gencode) (model : string) (s : state) :
  writes_artifacts_only self model s s.
Proof. by split. Qed.

Lemma writes_artifacts_only_trans (self : Gencode) (model : string) (s1 s2 s3 : state) :
  writes_artifacts_only self model s1 s2 -> writes_artifacts_only self model s2 s3 ->
  writes_artifacts_only self model s1 s3.
Proof.
  intros [Hout1 Hkeep1] [Hout2 Hkeep2]. split.
  - intros p Hp. by rewrite Hout2, Hout1.
  - intros p Hsome. by apply Hkeep2, Hkeep1.
Qed.

Lemma writes_artifacts_only_same (self : Gencode) (model : string) (s s' : state) :
  files s' = files s -> writes_artifacts_only self model s s'.
Proof. intros Hsame. split; intros p; by rewrite Hsame. Qed.

Section Run.
Context `{Scicode}.
Variables (model : string) (output_dir prompt_dir : Path) (temperature : Q).

Let gcode : Gencode := Build_Gencode model output_dir prompt_dir temperature.

Lemma generate_step_writes_artifacts_only (prob_data : problem) (steps i : Z) (s : state) :
  writes_artifacts_only gcode model s (fst (generate_step gcode model prob_data steps i s)).
Proof.
  unfold generate_step. destruct (fixture_override _ _); [apply writes_artifacts_only_refl|].
  destruct (generate_response_with_steps_effects gcode prob_data (i + 1) steps model
              DEFAULT_PROMPT_TEMPLATE true s) as (Hother & Hkeep & _).
  split; [|done]. intros p [Hprompt Hresp]. apply Hother.
  - apply Hresp.
  - intros _. unfold prompt_file_path. rewrite <- app_assoc. apply Hprompt.
Qed.

Lemma generate_problem_writes_artifacts_only (prob_data : problem) (s : state) :
  writes_artifacts_only gcode model s (fst (generate_problem gcode model prob_data s)).
Proof.
  unfold generate_problem. unfold bind at 1, modify at 1.
  apply (writes_artifacts_only_trans _ _ _
           (add_stdout ("Generating " +:+ problem_id prob_data +:+ "...") s));
    [by apply writes_artifacts_only_same|].
  apply (for_each_preserves (writes_artifacts_only gcode model));
    [apply writes_artifacts_only_refl|apply writes_artifacts_only_trans|].
  intros i s' _. apply generate_step_writes_artifacts_only.
Qed.

Lemma main_writes_artifacts_only (data : list problem) (s : state) :
  writes_artifacts_only gcode model s
    (fst (main model output_dir prompt_dir temperature data s)).
Proof.
  unfold main. fold gcode. unfold bind at 1, modify at 1.
  apply (writes_artifacts_only_trans _ _ _ (set_previous_llm_code [] s));
    [by apply writes_artifacts_only_same|].
  apply (for_each_preserves (writes_artifacts_only gcode model));
    [apply writes_artifacts_only_refl|apply writes_artifacts_only_trans|].
  intros prob_data s' _. apply generate_problem_writes_artifacts_only.
Qed.

(** The line of a problem is printed before its steps run, and nothing else
    is printed. *)
Lemma generate_problem_stdout (prob_data : problem) (s : state) :
  stdout (fst (generate_problem gcode model prob_data s))
    = stdout s ++ [generating_line prob_data].
Proof.
  unfold generate_problem. unfold bind at 1, modify at 1.
  change (stdout s ++ [generating_line prob_data])
    with (stdout (add_stdout ("Generating " +:+ problem_id prob_data +:+ "...") s)).
  generalize (add_stdout ("Generating " +:+ problem_id prob_data +:+ "...") s). intros s0.
  apply (for_each_preserves (fun s1 s2 => stdout s2 = stdout s1)); [done|congruence|].
  intros i s1 _. unfold generate_step. destruct (fixture_override _ _); [done|].
  by destruct (generate_response_with_steps_effects gcode prob_data (i + 1)
                 (Z.of_nat (length (sub_steps prob_data))) model DEFAULT_PROMPT_TEMPLATE
                 true s1) as (_ & _ & Hout & _).
Qed.

Lemma for_each_problems_stdout (data : list problem) (s s' : state) :
  for_each data (generate_problem gcode model) s = (s', Ok tt) ->
  stdout s' = stdout s ++ (generating_line <$> data).
Proof.
  revert s. induction data as [|prob_data data IH]; intros s; simpl.
  - intros [= <-]. by rewrite app_nil_r.
  - unfold bind. pose proof (generate_problem_stdout prob_data s) as Hline.
    destruct (generate_problem gcode model prob_data s) as [s1 [[]|e]]; [|done].
    intros Hrest. apply IH in Hrest. simpl in Hline.
    by rewrite Hrest, Hline, <- app_assoc.
Qed.

End Run.

(** X9.  Whatever its outcome, a run of [main] changes no file other than
    the response files and the prompt files of the steps it generates (every
    step index of every problem of the set, the pairs of the override table
    apart), and removes no file. *)
Theorem main_writes_only_artifacts `{Scicode} (model : string) (output_dir prompt_dir : Path)
    (temperature : Q) (data : list problem) (s : state) :
  let gcode := Build_Gencode model output_dir prompt_dir temperature in
  let s' := fst (main model output_dir prompt_dir temperature data s) in
  (forall p,
     (forall prob_data i,
        prob_data ∈ data ->
        0 <= i < Z.of_nat (length (sub_steps prob_data)) ->
        (problem_id prob_data, i) ∉ [("13", 5); ("62", 0); ("76", 2)] ->
        p <> response_file_path gcode model (problem_id prob_data) (i + 1)
        /\ p <> prompt_file_path gcode prob_data (i + 1)) ->
     files s' !! p = files s !! p)
  /\ (forall p, is_Some (files s !! p) -> is_Some (files s' !! p)).
Proof.
  intros gcode s'. subst s'. split.
  - intros p Hp. unfold main. fold gcode. unfold bind at 1, modify at 1.
    change (files s !! p) with (files (set_previous_llm_code [] s) !! p).
    generalize (set_previous_llm_code [] s). intros s0.
    apply (for_each_preserves (fun s1 s2 => files s2 !! p = files s1 !! p));
      [done|congruence|].
    intros prob_data s1 Hin. unfold generate_problem. unfold bind at 1, modify at 1.
    change (files s1 !! p)
      with (files (add_stdout ("Generating " +:+ problem_id prob_data +:+ "...") s1) !! p).
    generalize (add_stdout ("Generating " +:+ problem_id prob_data +:+ "...") s1). intros s2.
    apply (for_each_preserves (fun s3 s4 => files s4 !! p = files s3 !! p));
      [done|congruence|].
    intros i s3 Hi. apply elem_of_range in Hi. unfold generate_step.
    destruct (fixture_override _ _) eqn:Hover; [done|].
    destruct (Hp prob_data i Hin Hi) as [Hresp Hprompt].
    { rewrite <- fixture_override_spec. by rewrite Hover. }
    by apply (generate_response_with_steps_effects gcode prob_data (i + 1)).
  - apply (main_writes_artifacts_only model output_dir prompt_dir temperature data s).
Qed.

Lemma main_writes_only_artifacts_witness :
  files (fst (main (H := Demo.scicode) "gpt-4o" ["out"] ["prompts"] 0%Q
                [Demo.P1; Demo.P62] Demo.with_fixture)) !! ["eval"; "data"; "62.1.txt"]
  = Some "def f_c(): return 0".
Proof.
  destruct (main_writes_only_artifacts (H := Demo.scicode) "gpt-4o" ["out"] ["prompts"] 0%Q
              [Demo.P1; Demo.P62] Demo.with_fixture) as [Hother _].
  rewrite Hother; [reflexivity|].
  intros prob_data i _ _ _. split; intros Heq; discriminate Heq.
Defined.

(** X10.  A run of [main] that returns has printed one line per problem, in
    the order of the problem set, and nothing else. *)
Theorem main_prints_one_line_per_problem `{Scicode} (model : string)
    (output_dir prompt_dir : Path) (temperature : Q) (data : list problem) (s : state) :
  snd (main model output_dir prompt_dir temperature data s) = Ok tt ->
  stdout (fst (main model output_dir prompt_dir temperature data s))
    = stdout s ++ ((fun prob_data => "Generating " +:+ problem_id prob_data +:+ "...") <$> data).
Proof.
  unfold main. unfold bind at 1 2, modify at 1 2.
  destruct (for_each data _ _) as [s' [[]|e]] eqn:Hrun; [|done]. intros _.
  by apply for_each_problems_stdout in Hrun.
Qed.

Lemma main_prints_one_line_per_problem_witness :
  stdout (fst (main (H := Demo.scicode) "gpt-4o" ["out"] ["prompts"] 0%Q
                 [Demo.P1; Demo.P62] Demo.with_fixture))
  = ["Generating 1..."; "Generating 62..."].
Proof.
  apply (main_prints_one_line_per_problem (H := Demo.scicode) "gpt-4o" ["out"] ["prompts"]
           0%Q [Demo.P1; Demo.P62] Demo.with_fixture).
  reflexivity.
Defined.

(** ** Running [main] again *)

Lemma txt_not_py (a b : string) : a +:+ ".txt" <> b +:+ ".py".
Proof.
  intros Heq. apply (f_equal String.rev) in Heq.
  assert (forall x y acc, String.rev_app (x +:+ y) acc = String.rev_app y (String.rev_app x acc))
    as Hrev.
  { intros x. induction x as [|c x IH]; intros y acc; simpl; [done|apply IH]. }
  unfold String.rev in Heq. rewrite !Hrev in Heq. simpl in Heq. discriminate Heq.
Qed.

(** No prompt file is a response file, whatever the problems, the steps and
    the directories. *)
Lemma prompt_path_not_any_response_path (self self' : Gencode) (prob_data : problem)
    (num_steps : Z) (model prob_id : string) (n : Z) :
  prompt_file_path self prob_data num_steps <> response_file_path self' model prob_id n.
Proof.
  unfold prompt_file_path, response_file_path. rewrite (app_assoc (self_output_dir self')).
  intros Heq. apply app_inj_tail in Heq as [_ Heq]. revert Heq. unfold artifact_name.
  change ("." +:+ "txt") with ".txt". change ("." +:+ "py") with ".py".
  rewrite <- !(string_app_assoc _ "."), <- !(string_app_assoc _ (str _)).
  apply txt_not_py.
Qed.

(** The outcome of every iteration that returns still holds when the loop
    returns, if later iterations keep it. *)
Lemma for_each_establishes {A} (Q : A -> state -> Prop) (body : A -> M unit) (xs : list A) :
  (forall x s s', x ∈ xs -> body x s = (s', Ok tt) -> Q x s') ->
  (forall x y s, Q x s -> Q x (fst (body y s))) ->
  forall s s', for_each xs body s = (s', Ok tt) -> forall x, x ∈ xs -> Q x s'.
Proof.
  intros Hhere Hkeep. induction xs as [|a xs IH]; intros s s' Hrun x Hx.
  - by apply elem_of_nil in Hx.
  - simpl in Hrun. unfold bind in Hrun.
    destruct (body a s) as [s1 [[]|e]] eqn:Ha; [|done].
    apply elem_of_cons in Hx as [->|Hx].
    + pose proof (for_each_preserves (fun s2 s3 => Q a s2 -> Q a s3) xs body) as Hloop.
      specialize (Hloop (fun _ Hq => Hq) (fun _ _ _ H12 H23 Hq => H23 (H12 Hq))
                    (fun y s2 _ Hq => Hkeep a y s2 Hq) s1).
      rewrite Hrun in Hloop. apply Hloop. eapply Hhere; [by left|done].
    + eapply IH; [|done..]. intros y s2 s3 Hy. apply Hhere. by right.
Qed.

Section Rerun.
Context `{Scicode}.
Variables (model : string) (output_dir prompt_dir : Path) (temperature : Q).

Let gcode : Gencode := Build_Gencode model output_dir prompt_dir temperature.

(** A call that returns leaves the response file of its step on disk. *)
Lemma returned_call_has_response (self : Gencode) (prob_data : problem)
    (num_steps tot_steps : Z) (prompt_template : string) (save : bool) (s s' : state) :
  generate_response_with_steps self prob_data num_steps tot_steps model prompt_template save s
    = (s', Ok tt) ->
  is_Some (files s' !! response_file_path self model (problem_id prob_data) num_steps).
Proof.
  rewrite generate_response_with_steps_unfold.
  destruct (resolve_previous_steps _ _ _ _ _ s) as [s1 [[]|e]]; [|done].
  destruct (generate_prompt_with_steps _ _ _ s1) as [s2 [[prompt pc]|e]]; [|done].
  rewrite generate_if_absent_spec.
  destruct (files _ !! response_file_path _ _ _ _) eqn:Hfile; simpl.
  - intros [= <-]. by rewrite Hfile.
  - destruct (get_model_function _ _ _ _); simpl; [|done].
    destruct (setitem _ _ _); simpl; [|done].
    intros [= <-]. simpl. rewrite lookup_insert_eq. by eexists.
Qed.

(** A call that finds the response file of its step invokes no model and
    changes no response file. *)
Lemma call_with_response_is_quiet (self : Gencode) (prob_data : problem)
    (num_steps tot_steps : Z) (prompt_template : string) (save : bool) (s : state) :
  is_Some (files s !! response_file_path self model (problem_id prob_data) num_steps) ->
  let s' := fst (generate_response_with_steps self prob_data num_steps tot_steps model
                   prompt_template save s) in
  invocations s' = invocations s
  /\ forall self' model' prob_id n,
       files s' !! response_file_path self' model' prob_id n
         = files s !! response_file_path self' model' prob_id n.
Proof.
  intros Hfile. rewrite generate_response_with_steps_existing by done.
  pose proof (resolve_previous_steps_frame self prob_data num_steps tot_steps model s)
    as [_ Hinv _ _ _].
  pose proof (resolve_previous_steps_files self prob_data num_steps tot_steps model s) as Hfs.
  destruct (resolve_previous_steps _ _ _ _ _ s) as [s1 [[]|e]]; simpl in *;
    [|by rewrite Hfs].
  destruct (generate_prompt_with_steps _ _ _ s1) as [s2 [[prompt pc]|e]]; simpl;
    [|by rewrite Hfs].
  destruct save; simpl; [|by rewrite Hfs]. split; [done|].
  intros self' model' prob_id n.
  rewrite lookup_insert_ne by apply prompt_path_not_any_response_path. by rewrite Hfs.
Qed.

(** A run that returns leaves on disk the response file of every step it
    generates. *)
Lemma returned_run_has_responses (data : list problem) (s s' : state) :
  main model output_dir prompt_dir temperature data s = (s', Ok tt) ->
  responses_present gcode model data (files s').
Proof.
  unfold main. fold gcode. unfold bind at 1, modify at 1. intros Hrun.
  intros prob_data i Hin Hi Hover.
  pose proof (for_each_establishes
    (fun prob_data s1 => forall i, 0 <= i < Z.of_nat (length (sub_steps prob_data)) ->
       fixture_override (problem_id prob_data) i = false ->
       is_Some (files s1 !! response_file_path gcode model (problem_id prob_data) (i + 1)))
    (generate_problem gcode model) data) as Hall.
  eapply Hall; [| |exact Hrun|done..]; clear.
  - intros prob_data s s' _. unfold generate_problem. unfold bind at 1, modify at 1.
    intros Hsteps i Hi Hover.
    pose proof (for_each_establishes
      (fun i s1 => fixture_override (problem_id prob_data) i = false ->
         is_Some (files s1 !! response_file_path gcode model (problem_id prob_data) (i + 1)))
      (generate_step gcode model prob_data (Z.of_nat (length (sub_steps prob_data))))
      (range (Z.of_nat (length (sub_steps prob_data))))) as Hall.
    eapply Hall; [| |exact Hsteps|by apply elem_of_range|done].
    + intros j s1 s2 _. unfold generate_step. intros Hcall Hj. rewrite Hj in Hcall.
      by eapply returned_call_has_response.
    + intros j j' s1 Hj Hover'.
      by apply (generate_step_writes_artifacts_only model output_dir prompt_dir temperature),
        Hj.
  - intros prob_data prob_data' s Hq i Hi Hover.
    by apply (generate_problem_writes_artifacts_only model output_dir prompt_dir temperature),
      Hq.
Qed.

(** A run that starts with all these response files on disk invokes no
    model and changes no response file, whatever its outcome. *)
Lemma run_with_responses_is_quiet (data : list problem) (s : state) :
  responses_present gcode model data (files s) ->
  let s' := fst (main model output_dir prompt_dir temperature data s) in
  invocations s' = invocations s
  /\ forall self' model' prob_id n,
       files s' !! response_file_path self' model' prob_id n
         = files s !! response_file_path self' model' prob_id n.
Proof.
  set (quiet := fun s1 s2 : state =>
    responses_present gcode model data (files s1) ->
    invocations s2 = invocations s1
    /\ forall self' model' prob_id n,
         files s2 !! response_file_path self' model' prob_id n
           = files s1 !! response_file_path self' model' prob_id n).
  assert (forall s1, quiet s1 s1) as Hrefl by by intros s1 _.
  assert (forall s1 s2 s3, quiet s1 s2 -> quiet s2 s3 -> quiet s1 s3) as Htrans.
  { intros s1 s2 s3 H12 H23 Hpresent. destruct (H12 Hpresent) as [Hinv1 Hresp1].
    destruct H23 as [Hinv2 Hresp2].
    - intros prob_data i Hin Hi Hover. rewrite Hresp1. by apply Hpresent.
    - split; [congruence|]. intros self' model' prob_id n. by rewrite Hresp2, Hresp1. }
  intros Hpresent. unfold main. fold gcode. unfold bind at 1, modify at 1.
  cut (quiet (set_previous_llm_code [] s)
         (fst (for_each data (generate_problem gcode model) (set_previous_llm_code [] s)))).
  { intros Hquiet. by apply Hquiet. }
  apply (for_each_preserves quiet); [done..|].
  intros prob_data s1 Hin. unfold generate_problem. unfold bind at 1, modify at 1.
  apply (Htrans _ (add_stdout ("Generating " +:+ problem_id prob_data +:+ "...") s1));
    [by intros _|].
  apply (for_each_preserves quiet); [done..|].
  intros i s2 Hi Hpresent2. apply elem_of_range in Hi. unfold generate_step.
  destruct (fixture_override _ _) eqn:Hover; [done|].
  apply call_with_response_is_quiet. by apply Hpresent2.
Qed.

End Rerun.

(** X11.  A run of [main] that returns leaves on disk the response file of
    every step of every problem of the set, the steps of the override table
    apart. *)
Theorem completed_run_has_every_response `{Scicode} (model : string)
    (output_dir prompt_dir : Path) (temperature : Q) (data : list problem) (s : state) :
  snd (main model output_dir prompt_dir temperature data s) = Ok tt ->
  forall prob_data i,
    prob_data ∈ data ->
    0 <= i < Z.of_nat (length (sub_steps prob_data)) ->
    (problem_id prob_data, i) ∉ [("13", 5); ("62", 0); ("76", 2)] ->
    is_Some (files (fst (main model output_dir prompt_dir temperature data s))
               !! (output_dir ++ [model]
                     ++ [problem_id prob_data +:+ "." +:+ str (i + 1) +:+ ".py"])).
Proof.
  intros Hok prob_data i Hin Hi Hover.
  destruct (main model output_dir prompt_dir temperature data s) as [s' r] eqn:Hrun.
  simpl in *. subst r.
  apply (returned_run_has_responses _ _ _ _ _ _ _ Hrun prob_data i Hin Hi).
  rewrite <- fixture_override_spec in Hover. by destruct (fixture_override _ _).
Qed.

Lemma completed_run_has_every_response_witness :
  is_Some (files (fst (main (H := Demo.scicode) "gpt-4o" ["out"] ["prompts"] 0%Q
                         [Demo.P1; Demo.P62] Demo.with_fixture))
             !! ["out"; "gpt-4o"; "62.2.py"]).
Proof.
  apply (completed_run_has_every_response (H := Demo.scicode) "gpt-4o" ["out"] ["prompts"]
           0%Q [Demo.P1; Demo.P62] Demo.with_fixture eq_refl Demo.P62 1).
  - apply elem_of_cons. right. apply elem_of_cons. by left.
  - simpl. lia.
  - intros Hin. repeat (apply elem_of_cons in Hin as [Hin|Hin]; [discriminate Hin|]).
    by apply elem_of_nil in Hin.
Defined.

(** X12.  After a run of [main] that returned, a second run on the same
    problem set from the state the first one left invokes no model and
    leaves every response file as it was, whether it returns or raises. *)
Theorem rerun_invokes_no_model `{Scicode} (model : string) (output_dir prompt_dir : Path)
    (temperature : Q) (data : list problem) (s : state) :
  snd (main model output_dir prompt_dir temperature data s) = Ok tt ->
  let s1 := fst (main model output_dir prompt_dir temperature data s) in
  let s2 := fst (main model output_dir prompt_dir temperature data s1) in
  invocations s2 = invocations s1
  /\ forall prob_id n,
       files s2 !! (output_dir ++ [model] ++ [prob_id +:+ "." +:+ str n +:+ ".py"])
         = files s1 !! (output_dir ++ [model] ++ [prob_id +:+ "." +:+ str n +:+ ".py"]).
Proof.
  intros Hok s1 s2. subst s1 s2.
  destruct (main model output_dir prompt_dir temperature data s) as [s1 r] eqn:Hrun.
  simpl in *. subst r.
  pose proof (returned_run_has_responses _ _ _ _ _ _ _ Hrun) as Hpresent.
  destruct (run_with_responses_is_quiet _ _ _ _ _ _ Hpresent) as [Hinv Hresp].
  split; [done|]. intros prob_id n.
  apply (Hresp (Build_Gencode model output_dir prompt_dir temperature) model prob_id n).
Qed.

Lemma rerun_invokes_no_model_witness :
  length (invocations
            (fst (main (H := Demo.scicode) "gpt-4o" ["out"] ["prompts"] 0%Q [Demo.P1]
                    (fst (main (H := Demo.scicode) "gpt-4o" ["out"] ["prompts"] 0%Q
                            [Demo.P1] Demo.empty_state)))))
  = length (invocations
              (fst (main (H := Demo.scicode) "gpt-4o" ["out"] ["prompts"] 0%Q [Demo.P1]
                      Demo.empty_state))).
Proof.
  destruct (rerun_invokes_no_model (H := Demo.scicode) "gpt-4o" ["out"] ["prompts"] 0%Q
              [Demo.P1] Demo.empty_state eq_refl) as [Hinv _].
  simpl in Hinv. rewrite Hinv. reflexivity.
Defined.

(** ** File names do not collide *)

Lemma dotless_pretty_N_go (x : N) (s : string) : dotless s -> dotless (pretty_N_go x s).
Proof.
  revert s. induction (N.lt_wf_0 x) as [x _ IH]; intros s Hs.
  destruct (decide (x = 0)%N) as [->|Hx]; [by rewrite pretty_N_go_0|].
  rewrite pretty_N_go_step by lia. apply IH.
  - apply N.div_lt; lia.
  - split; [|done]. unfold pretty_N_char. by repeat case_match.
Qed.

Lemma dotless_str (n : Z) : dotless (str n).
Proof.
  assert (forall p : positive, dotless (pretty p)) as Hpos.
  { intros p. unfold pretty, pretty_positive, pretty, pretty_N.
    case_decide; [done|]. by apply dotless_pretty_N_go. }
  unfold str, pretty, pretty_Z. destruct n as [|p|p]; [done|apply Hpos|].
  split; [done|apply Hpos].
Qed.

Lemma dotless_no_dot (a b : string) : ~ dotless (a +:+ "." +:+ b).
Proof.
  induction a as [|c a IH]; intros Hd.
  - change (dotless (String "." b)) in Hd. by destruct Hd.
  - change (dotless (String c (a +:+ "." +:+ b))) in Hd. destruct Hd as [_ Hd]. auto.
Qed.

(** The last dot of a string splits it in one way only. *)
Lemma last_dot_split (a a' d d' : string) :
  dotless d -> dotless d' -> a +:+ "." +:+ d = a' +:+ "." +:+ d' -> a = a' /\ d = d'.
Proof.
  intros Hd Hd'. revert a'. induction a as [|c a IH]; intros [|c' a'] Heq.
  - change (String "." d = String "." d') in Heq. by injection Heq.
  - change (String "." d = String c' (a' +:+ "." +:+ d')) in Heq.
    injection Heq as _ ->. by apply dotless_no_dot in Hd.
  - change (String c (a +:+ "." +:+ d) = String "." d') in Heq.
    injection Heq as _ <-. by apply dotless_no_dot in Hd'.
  - change (String c (a +:+ "." +:+ d) = String c' (a' +:+ "." +:+ d')) in Heq.
    injection Heq as -> Heq. destruct (IH a' Heq) as [-> ->]. done.
Qed.

Lemma string_app_inv_tail (a b c : string) : a +:+ c = b +:+ c -> a = b.
Proof.
  intros Heq.
  assert (String.length a = String.length b) as Hlen.
  { apply (f_equal String.length) in Heq. rewrite !string_length_app in Heq. lia. }
  revert b Heq Hlen. induction a as [|x a IH]; intros [|y b] Heq Hlen; try done.
  change (String x (a +:+ c) = String y (b +:+ c)) in Heq.
  injection Heq as -> Heq. f_equal. apply IH; [done|]. by injection Hlen.
Qed.

(** X13.  The file name [f"{prob_id}.{n}.{ext}"] built at lines 27, 37 and
    91 determines the problem identifier and the step number: two different
    (identifier, step) pairs never give the same name, also when an
    identifier has dots of its own, since the decimal writing of the step
    has none. *)
Theorem artifact_names_do_not_collide (prob_id prob_id' : string) (n n' : Z) (ext : string) :
  (prob_id, n) <> (prob_id', n') ->
  artifact_name prob_id n ext <> artifact_name prob_id' n' ext
  /\ prob_id +:+ "." +:+ str n +:+ "." +:+ ext
     <> prob_id' +:+ "." +:+ str n' +:+ "." +:+ ext.
Proof.
  intros Hne.
  assert (artifact_name prob_id n ext <> artifact_name prob_id' n' ext) as Hname; [|by split].
  unfold artifact_name. intros Heq. apply Hne.
  rewrite <- !(string_app_assoc (str _) "." ext),
    <- !(string_app_assoc "." (str _ +:+ ".") ext),
    <- !(string_app_assoc _ ("." +:+ str _ +:+ ".") ext) in Heq.
  apply string_app_inv_tail in Heq.
  rewrite <- !(string_app_assoc "." (str _) "."),
    <- !(string_app_assoc _ ("." +:+ str _) ".") in Heq.
  apply string_app_inv_tail in Heq.
  apply last_dot_split in Heq as [-> Hstr]; [|apply dotless_str..].
  by apply (inj pretty) in Hstr as ->.
Qed.

Lemma artifact_names_do_not_collide_witness :
  artifact_name "1" 12 "py" <> artifact_name "1.1" 2 "py"
  /\ "1" +:+ "." +:+ str 12 +:+ "." +:+ "py" <> "1.1" +:+ "." +:+ str 2 +:+ "." +:+ "py".
Proof.
  apply (artifact_names_do_not_collide "1" "1.1" 12 2 "py"). discriminate.
Defined.

(** ** Bodies held in memory *)

Section Sticky.
Context `{Scicode}.
Variables (self : Gencode) (prob_data : problem) (num_steps tot_steps : Z) (model : string).

Lemma resolve_prev_step_keeps_body (prev_step : Z) (s : state) (j : nat) (body : string) :
  0 <= prev_step ->
  previous_llm_code s !! j = Some (Some body) ->
  previous_llm_code (fst (resolve_prev_step self prob_data num_steps model prev_step s)) !! j
    = Some (Some body).
Proof.
  intros Hi Hj. rewrite resolve_prev_step_spec by done.
  destruct (previous_llm_code s !! Z.to_nat prev_step) as [[b|]|] eqn:Hslot; simpl; try done.
  repeat case_match; simpl; try done.
  rewrite list_lookup_insert_ne; [done|]. intros <-. congruence.
Qed.

Lemma resolve_previous_steps_keeps_body (s : state) (j : nat) (body : string) :
  num_steps <> 1 ->
  Z.of_nat (length (previous_llm_code s)) = tot_steps ->
  previous_llm_code s !! j = Some (Some body) ->
  previous_llm_code (fst (resolve_previous_steps self prob_data num_steps tot_steps model s))
    !! j = Some (Some body).
Proof.
  intros Hk Hlen Hj. rewrite resolve_previous_steps_unfold. simpl.
  destruct (Z.eqb_spec num_steps 1); [done|].
  unfold cache_after_reset. destruct (Z.eqb_spec num_steps 1); [done|].
  rewrite (proj2 (Z.eqb_eq _ _) Hlen). simpl.
  assert (set_previous_llm_code (previous_llm_code s) s = s) as -> by by destruct s.
  revert Hj.
  apply (for_each_preserves
           (fun s1 s2 => previous_llm_code s1 !! j = Some (Some body) ->
                         previous_llm_code s2 !! j = Some (Some body))); [auto..|].
  intros i s1 Hi. apply elem_of_range in Hi. apply resolve_prev_step_keeps_body. lia.
Qed.

End Sticky.

(** X14.  In a call for a step after the first that finds a cache with one
    slot per step, a slot that holds a body keeps it, whatever the files
    hold, whatever problem the body came from and whatever the outcome of the
    call; only the slot of the step being generated may change. *)
Theorem held_bodies_are_kept `{Scicode} (self : Gencode) (prob_data : problem)
    (num_steps tot_steps : Z) (model prompt_template : string) (save : bool)
    (s : state) (j : nat) (body : string) :
  1 < num_steps ->
  Z.of_nat (length (previous_llm_code s)) = tot_steps ->
  previous_llm_code s !! j = Some (Some body) ->
  Z.of_nat j <> num_steps - 1 ->
  previous_llm_code
    (fst (generate_response_with_steps self prob_data num_steps tot_steps model
            prompt_template save s)) !! j = Some (Some body).
Proof.
  intros Hk Hlen Hj Hne. rewrite generate_response_with_steps_unfold.
  pose proof (resolve_previous_steps_keeps_body self prob_data num_steps tot_steps model
                s j body) as Hkeep.
  destruct (resolve_previous_steps _ _ _ _ _ s) as [s1 [[]|e]]; simpl in Hkeep;
    [|apply Hkeep; (done || lia)].
  destruct (generate_prompt_with_steps _ _ _ s1) as [s2 [[prompt pc]|e]]; simpl;
    [|apply Hkeep; (done || lia)].
  destruct (generate_if_absent_effects self prob_data num_steps model prompt pc
              (after_save_prompt self prob_data num_steps prompt save s1))
    as (_ & _ & _ & _ & Hslots).
  destruct (after_save_prompt_effects self prob_data num_steps save prompt s1)
    as (_ & _ & _ & Hcache).
  simpl in *. rewrite Hslots, Hcache by lia. apply Hkeep; (done || lia).
Qed.

Lemma held_bodies_are_kept_witness :
  previous_llm_code
    (fst (generate_response_with_steps (H := Demo.scicode) Demo.gcode Demo.P62 2 2 "gpt-4o"
            "T" true (State [Some "code0"; Some "code1"] (files Demo.with_fixture) [] [])))
    !! 0%nat = Some (Some "code0").
Proof.
  apply (held_bodies_are_kept (H := Demo.scicode) Demo.gcode Demo.P62 2 2 "gpt-4o" "T" true
           (State [Some "code0"; Some "code1"] (files Demo.with_fixture) [] []) 0 "code0").
  - lia.
  - reflexivity.
  - reflexivity.
  - lia.
Defined.

(** ** The first step of a problem *)

(** X15.  A call for step 1 that finds no response file depends on neither
    the cache nor the other files: when the template renders and the model
    answers, it returns with a cache of [tot_steps] slots whose first one
    holds the extracted script and the others are unresolved, a response file
    made of the dependencies, three newlines and the script, the prompt
    rendered on an empty prior-steps text when [save] is set, and one
    invocation. *)
Theorem first_step_from_scratch `{Scicode} (self : Gencode) (prob_data : problem)
    (tot_steps : Z) (model prompt_template : string) (save : bool) (s : state)
    (st : sub_step) (prompt response : string) :
  files s !! response_file_path self model (problem_id prob_data) 1 = None ->
  sub_steps prob_data !! 0%nat = Some st ->
  1 <= tot_steps ->
  format prompt_template ""
    (step_description_prompt st +:+ (nl +:+ nl)
       +:+ (function_header st +:+ nl +:+ nl +:+ return_line st))
    (required_dependencies prob_data) = Ok prompt ->
  get_model_function model (model_kwargs self model) (length (invocations s)) prompt
    = Ok response ->
  let out := generate_response_with_steps self prob_data 1 tot_steps model prompt_template
               save s in
  let code := extract_python_script response in
  snd out = Ok tt
  /\ previous_llm_code (fst out) = Some code :: replicate (Z.to_nat tot_steps - 1) None
  /\ files (fst out)
     = <[response_file_path self model (problem_id prob_data) 1
         := required_dependencies prob_data +:+ nl +:+ nl +:+ nl +:+ code]>
         (if save then <[prompt_file_path self prob_data 1 := prompt]> (files s) else files s)
  /\ invocations (fst out)
     = invocations s ++ [Invocation model (model_kwargs self model) prompt].
Proof.
  intros Hfile Hst Htot Hformat Hmodel out code. subst out.
  set (s1 := set_previous_llm_code (none_list tot_steps) s).
  assert (resolve_previous_steps self prob_data 1 tot_steps model s = (s1, Ok tt)) as Hres
    by done.
  assert (generate_prompt_with_steps prob_data 1 prompt_template s1
          = (s1, Ok (prompt, required_dependencies prob_data +:+ nl +:+ nl))) as Hgen.
  { destruct (generate_prompt_with_steps_bodies prob_data 1 prompt_template s1 [] st)
      as [_ ->]; try done.
    change (next_step_text st)
      with (step_description_prompt st +:+ (nl +:+ nl)
              +:+ (function_header st +:+ nl +:+ nl +:+ return_line st)).
    change (String.concat (nl +:+ nl) (separated "------" [])) with "".
    by rewrite Hformat. }
  rewrite generate_response_with_steps_unfold, Hres, Hgen, generate_if_absent_spec.
  rewrite after_save_prompt_response. simpl. rewrite Hfile. simpl.
  destruct (after_save_prompt_facts self prob_data 1 tot_steps model save
              s s1 (Ok tt) prompt Hres) as (Hcache & Hfiles & Hinv & _).
  rewrite Hinv, Hmodel, Hcache. simpl.
  unfold setitem, py_index. simpl. unfold none_list.
  destruct (Z.to_nat tot_steps) as [|n] eqn:Hn; [lia|]. simpl.
  rewrite Hfiles, Hinv, Nat.sub_0_r.
  by rewrite <- !string_app_assoc.
Qed.

Lemma first_step_from_scratch_witness :
  previous_llm_code
    (fst (generate_response_with_steps (H := Demo.scicode) Demo.gcode Demo.P1 1 2 "gpt-4o"
            "T" true (State [Some "stale"; Some "stale"; Some "stale"] ∅ [] [])))
  = [Some "code0"; None].
Proof.
  destruct (first_step_from_scratch (H := Demo.scicode) Demo.gcode Demo.P1 2 "gpt-4o" "T"
              true (State [Some "stale"; Some "stale"; Some "stale"] ∅ [] [])
              (Demo.step "a")
              ("[|desc a" +:+ nl +:+ nl +:+ "f_a" +:+ nl +:+ nl
                 +:+ "return a|import numpy as np]") "code0") as (_ & Hcache & _).
  - reflexivity.
  - reflexivity.
  - lia.
  - reflexivity.
  - reflexivity.
  - exact Hcache.
Defined.

(** ** Failures of the collaborators before the model is called *)

(** X16.  When the loop over the earlier steps reaches a step whose slot is
    unresolved and whose source file exists, and [extract_function_name]
    raises on the header of that step, the call raises the same exception; no
    file was written and no model invoked. *)
Theorem unnamed_header_raises `{Scicode} (self : Gencode) (prob_data : problem)
    (num_steps tot_steps : Z) (model prompt_template : string) (save : bool)
    (s s1 : state) (j : Z) (content : string) (st : sub_step) (e : exn) :
  0 <= j < num_steps - 1 ->
  let cache0 := cache_after_reset num_steps tot_steps (previous_llm_code s) in
  for_each (range j) (resolve_prev_step self prob_data num_steps model)
      (set_previous_llm_code cache0 s) = (s1, Ok tt) ->
  cache0 !! Z.to_nat j = Some None ->
  files s !! prev_file_path self model (problem_id prob_data) j = Some content ->
  sub_steps prob_data !! Z.to_nat j = Some st ->
  extract_function_name (function_header st) = Raise e ->
  generate_response_with_steps self prob_data num_steps tot_steps model prompt_template save s
    = (s1, Raise e)
  /\ files s1 = files s
  /\ invocations s1 = invocations s.
Proof.
  intros Hj cache0 Hreach Hslot Hfile Hst Hname.
  set (s0 := set_previous_llm_code cache0 s) in *.
  pose proof (resolve_loop_frame self prob_data num_steps model j s0) as Hframe.
  rewrite Hreach in Hframe. simpl in Hframe. destruct Hframe as [Hfiles Hinv _ _ Hkeep].
  assert (files s1 = files s) as Hfs.
  { apply map_eq. intros p. by rewrite Hfiles by apply not_elem_of_nil. }
  split; [|done].
  assert (resolve_previous_steps self prob_data num_steps tot_steps model s = (s1, Raise e))
    as Hres.
  { rewrite resolve_previous_steps_unfold. simpl. fold cache0. fold s0.
    destruct (Z.eqb_spec num_steps 1); [lia|].
    destruct (range_split j (num_steps - 1)) as [rest ->]; [lia|].
    apply for_each_raise with (s1 := s1); [done|].
    rewrite resolve_prev_step_spec by lia.
    rewrite Hkeep by lia. simpl. by rewrite Hslot, Hfs, Hfile, Hst, Hname. }
  by rewrite generate_response_with_steps_unfold, Hres.
Qed.

Lemma unnamed_header_raises_witness :
  snd (generate_response_with_steps (H := Faulty.strict) Demo.gcode Demo.P1 2 2 "gpt-4o" "T"
         true Demo.step_1_done)
  = Raise (ValueError "Function name or class name not found.").
Proof.
  destruct (unnamed_header_raises (H := Faulty.strict) Demo.gcode Demo.P1 2 2 "gpt-4o" "T"
              true Demo.step_1_done (State [None; None] (files Demo.step_1_done) [] []) 0
              "def f_a(): pass" (Demo.step "a")
              (ValueError "Function name or class name not found.")) as [Hcall _].
  - lia.
  - reflexivity.
  - reflexivity.
  - reflexivity.
  - reflexivity.
  - reflexivity.
  - by rewrite Hcall.
Defined.

(** X17.  When the rendering of the template raises, the call raises the
    same exception after resolution: no prompt file is written even with
    [save] set, no response file is written and no model is invoked. *)
Theorem template_failure_writes_nothing `{Scicode} (self : Gencode) (prob_data : problem)
    (num_steps tot_steps : Z) (model prompt_template : string) (save : bool)
    (s s1 : state) (problem_steps_str next_step_str previous_code_str : string) (e : exn) :
  resolve_previous_steps self prob_data num_steps tot_steps model s = (s1, Ok tt) ->
  process_problem_steps prob_data num_steps s1
    = (s1, Ok (problem_steps_str, next_step_str, previous_code_str)) ->
  format prompt_template problem_steps_str next_step_str (required_dependencies prob_data)
    = Raise e ->
  generate_response_with_steps self prob_data num_steps tot_steps model prompt_template save s
    = (s1, Raise e)
  /\ files s1 = files s
  /\ invocations s1 = invocations s.
Proof.
  intros Hres Hsteps Hformat.
  pose proof (resolve_previous_steps_frame self prob_data num_steps tot_steps model s)
    as [_ Hinv _ _ _].
  pose proof (resolve_previous_steps_files self prob_data num_steps tot_steps model s) as Hfs.
  rewrite Hres in Hinv, Hfs. split; [|done].
  rewrite generate_response_with_steps_unfold, Hres.
  unfold generate_prompt_with_steps. unfold bind at 1. rewrite Hsteps.
  destruct (process_problem_steps_next_step _ _ _ _ _ _ _ Hsteps) as (st & _ & ->).
  rewrite bool_decide_eq_false_2 by apply next_step_text_nonempty.
  run. by rewrite Hformat.
Qed.

Lemma template_failure_writes_nothing_witness :
  generate_response_with_steps (H := Faulty.strict) Demo.gcode Demo.P1 1 2 "gpt-4o"
    "Solve {missing}" true Demo.empty_state
  = (State [None; None] ∅ [] [], Raise (KeyError "missing")).
Proof.
  destruct (template_failure_writes_nothing (H := Faulty.strict) Demo.gcode Demo.P1 1 2
              "gpt-4o" "Solve {missing}" true Demo.empty_state (State [None; None] ∅ [] [])
              "" ("desc a" +:+ (nl +:+ nl) +:+ ("f_a" +:+ nl +:+ nl +:+ "return a")) ""
              (KeyError "missing")) as [Hcall _].
  - reflexivity.
  - reflexivity.
  - reflexivity.
  - exact Hcall.
Defined.
